(* ===== verification/_CoqProject ===== *)
-Q . S2P
Prelude.v
Number.v
Format.v
Exact.v
Evaluator.v
Parse.v
Stepper.v
Calculator.v
Settings.v
App.v
Styles.v
Anim.v
View.v
Look.v
Float64.v
Runs.v
