(* ===== verification/Prelude.v ===== *)
(** * A verification development of Num_Maths, the modified-Euler calculator

    The program (a React Native app, TypeScript) has three screens in a tab
    layout. Only two of them compute anything.

    - [src/app/(tabs)/index.tsx], component [Calculator]. The button handler
      [solveEulerModified] (lines 53-108) parses five text fields and
      computes [n = Math.ceil((xf - x0) / h)]. It then runs a loop of [n]
      steps of Heun's predictor-corrector method with [c] corrections per
      step, and pushes a trace of formatted strings into [solutionSteps]. A
      [try]/[catch] replaces the whole trace with one error line when
      anything throws. The right-hand side [f(x, y)] is the closure of lines
      67-70: it strips ["y'"] and the first ["="] from the equation text and
      hands the rest to mathjs' [evaluate] with the scope [{x, y}].
      [formatNumber] (line 51) is [toFixed(precision)].
    - [src/contexts/SettingsContext.tsx] keeps the settings state
      ([darkMode], [notifications], [precision]), and [useSettings] throws
      outside a provider. [src/app/(tabs)/settings.tsx] changes that state:
      the precision buttons clamp it to [0..8] (lines 70 and 82) and a
      switch sets dark mode.
    - [src/app/(tabs)/_layout.tsx] declares the three tabs, and
      [src/app/(tabs)/theory.tsx] shows a static text stating the
      algorithm and its local error [O(h^3)]. The JSX of the three screens
      computes nothing, but it decides what the user sees and which
      handlers exist: [View] models it as trees. Each screen has a
      [StyleSheet.create] object ([Styles]) and entrance animations
      started on mount with reanimated ([Anim]).

    ** Files, in dependency order

    - [Prelude] (this file): the [exec] outcome of a JavaScript block (a
      value, a thrown exception, or fuel exhausted for a loop that has not
      finished), with its bind notation in [exec_scope], the hint database
      [heun], and shared lemmas on [Nat.iter] and lists.
    - [Number]: the interface [JSNumber] of the JavaScript number operations
      the handler uses ([+ - * /], [<], [Math.ceil], the literals, [toFixed],
      [String(x)], and the values [parseFloat] can return), with notations
      in [js_scope]. It also defines the trip count of a loop
      [for (let i = 0; i < n; i++)] as a property of [n] ([trips]), with a
      boolean decision procedure.
    - [Format]: [Number.prototype.toFixed] (ECMA-262) on the exact value
      of a number, and [ToString] on integers.
    - [Exact]: an instance of [JSNumber] on rationals with the infinities
      and NaN ([xnum]), its setoid [xeq] with [Proper] operations, and the
      trip count of the step loop for a non-zero [h].
    - [Evaluator]: the string preprocessing of the [f] closure
      ([String.prototype.replace] with a string pattern, [trim]) and the
      adapter [f] over an abstract [evaluate] capability (mathjs is a
      library the sources only call).
    - [Parse]: [parseFloat] and [parseInt] (ECMA-262) on the field texts.
    - [Stepper]: [solveEulerModified] after the parsing, over any
      [JSNumber] instance: the correction loop, the step loop, the header
      and final lines, and the [try]/[catch]. It also holds the abstract
      specification (Heun's recurrence [heun_step] as a pure function),
      the refinement and structure theorems and the fuel the loops need,
      all proved against the interface, so that they hold on binary64 as
      on exact numbers. Only the [h = 0] divergence is stated on exact
      numbers.
    - [Calculator]: the component's state as a record, the form's setters
      and the Solve button as a step relation [calculator_step], the full
      handler [solveEulerModified] with its parsing, and the styles of the
      results list. The results panel never shows a partial trace.
    - [Settings]: the settings context as a record, its operations as a step
      relation, and the invariant [0 <= precision <= 8] on every reachable
      state.
    - [App]: the two screens together. What the calculator needs from the
      settings (a precision in [0..8] in every reachable state) is the
      interface [precision_store], implemented by [settings_store]; the
      events of both screens interleave in [app_step]. Solve range-checks
      the precision as [toFixed] does ([solveEulerModified_js]).
    - [Styles] (loads stdpp): the three style sheets as [gmap]s, the
      entries of a [style={[...]}] array, and React Native's
      [StyleSheet.flatten].
    - [Anim]: reanimated's [withSpring], [withDelay] and [withSequence]
      as a timeline over an abstract spring curve, the animations each
      screen starts on mount, and its [useAnimatedStyle] functions.
    - [View]: the JSX of the three screens ([render_calculator],
      [render_settings], [theory_screen]) and of the tab layout ([tabs],
      [render_tab]) as trees of [node]s keeping components, style arrays,
      texts, inputs and handlers, rendered at given animation values.
    - [Look]: the style arrays resolved, the colour of every text and
      the background it is drawn on.
    - [Float64]: the binary64 instance of [JSNumber], the numbers the app
      really computes with: the kernel's IEEE primitive floats for the
      arithmetic, and [Math.ceil], [Number::toString], [toFixed] and the
      rounding of parsed decimals defined on exact dyadic values.
    - [Runs]: the handler evaluated on binary64 for given fields, among
      them the default form and a target below the start.

    ** What the theorems show
    - Refinement: with a right-hand side that never throws and loop bounds
      of [k] and [m] trips, the trace is the header, [k] step blocks and the
      final point of [k] iterations of [heun_step] ([Stepper]), on every
      instance of [JSNumber].
    - Error paths: the result is all or nothing (the single error line or a
      complete trace), a failing first evaluation gives the error line, and
      zero steps hide a malformed equation. Solve never reads the previous
      solution. Each correction line prints the corrected value where the
      code means the previous one ([correction_line_misreports]).
    - Termination: [k + m] units of fuel are enough when the loops run
      [k] and [m] times, whatever the right-hand side does and on every
      instance; with [h = 0] and [x0 < xf] the step bound is [+Infinity]
      and no fuel suffices.
    - Invariants: reachable settings keep [0 <= precision <= 8], every
      reachable calculator state shows an empty, error or complete trace,
      also when the events of both screens interleave ([App]), and the
      precision only changes the text of the trace.
    - Safety: in every reachable app state Solve runs at the store's
      precision, which is in [toFixed]'s range, so that check never throws.
    - The screens: the step relations of [Calculator] and [Settings] are
      exactly the events of the handlers the screens render; every input
      shows the field it edits, also right after typing; the calculator
      tab depends on the settings only through its colours.
    - The look: in every state, theme and animation frame every text has
      a colour string different from its background's; a run's lines are
      coloured by their kind; once the entrance animations have run, every
      section is fully opaque and in place, whatever the spring does on
      the way.

    ** Fuel
    The two [for] loops of the handler are modelled as [Fixpoint]s that
    consume one unit of fuel per iteration. When the fuel runs out while
    the loop condition is still true, the result is [OutOfFuel]. The
    theorems say how much fuel is enough: [k + m] units for [k] steps of
    [m] corrections, as the inner loop gets the outer loop's remaining
    fuel. When no amount of fuel suffices, they say so (the [h = 0] case).
    The concrete runs use 50 units, enough for their at most 10 steps.
    [trim] takes one unit per removed whitespace sequence, and the string's
    length is enough. [Number::toString] tries at most 17 digit counts,
    which identify every binary64 value.

    ** Not modelled
    mathjs ([evaluate] is a parameter, and the concrete runs use a stand-in
    for the expression [x + y]). Of the rendering: the spring's physics
    (a section variable of [Anim], of which only the value at the start
    and after the spring's duration matter), the layout React Native
    computes from sizes, margins and flexbox (the style values are kept,
    their geometry is not computed), and the icons' drawing.
    [setNotifications] is defined but is no step of
    [settings_step], as no code calls it. [toFixed]'s [RangeError] is not
    raised inside [Stepper.formatNumber], whose precision is a [nat]: the
    first call comes before anything that can throw, so the handler
    decides it once ([Calculator.solveEulerModified_js]), and [App] shows
    the store's precision is always in range. The exact instance has no
    negative zero, and its [String(x)] of a non-integer prints 20
    decimals where JavaScript prints the shortest round-trip digits (the
    handler prints only integers with it: [n], [c] and the counters);
    [Float64] has both. *)

From Stdlib Require Import String Ascii List PeanoNat Lia.
Import ListNotations.

Create HintDb heun.
Create Rewrite HintDb exec.

(** ** The outcome of a JavaScript block *)

(** A block of the handler either returns a value, throws (an exception
    from [evaluate], or a [TypeError] on a non-number result), or is still
    looping when the fuel is spent. *)
Inductive exec (A : Type) : Type :=
| Ok (a : A)
| Thrown
| OutOfFuel.
Arguments Ok {A} a.
Arguments Thrown {A}.
Arguments OutOfFuel {A}.

Definition exec_bind {A B : Type} (m : exec A) (k : A -> exec B) : exec B :=
  match m with
  | Ok a => k a
  | Thrown => Thrown
  | OutOfFuel => OutOfFuel
  end.

Definition exec_map {A B : Type} (g : A -> B) (m : exec A) : exec B :=
  exec_bind m (fun a => Ok (g a)).

(** A call that may fail, such as [evaluate]: [None] throws. *)
Definition of_option {A : Type} (o : option A) : exec A :=
  match o with
  | Some a => Ok a
  | None => Thrown
  end.

Declare Scope exec_scope.
Delimit Scope exec_scope with exec.
Notation "'let!' x ':=' m 'in' k" := (exec_bind m (fun x => k))
  (at level 10, x binder, m at level 100, k at level 200) : exec_scope.
Notation "'let!' ' p ':=' m 'in' k" := (exec_bind m (fun p => k))
  (at level 10, p pattern, m at level 100, k at level 200) : exec_scope.

Lemma exec_bind_Ok {A B : Type} (a : A) (k : A -> exec B) :
  exec_bind (Ok a) k = k a.
Proof. reflexivity. Qed.

Lemma exec_bind_Thrown {A B : Type} (k : A -> exec B) :
  exec_bind Thrown k = Thrown.
Proof. reflexivity. Qed.

Lemma exec_bind_OutOfFuel {A B : Type} (k : A -> exec B) :
  exec_bind OutOfFuel k = OutOfFuel.
Proof. reflexivity. Qed.

Lemma of_option_Some {A : Type} (a : A) : of_option (Some a) = Ok a.
Proof. reflexivity. Qed.

#[export] Hint Rewrite @exec_bind_Ok @exec_bind_Thrown @exec_bind_OutOfFuel
  @of_option_Some : exec.

Lemma exec_bind_inv_Ok {A B : Type} (m : exec A) (k : A -> exec B) (b : B) :
  exec_bind m k = Ok b -> exists a, m = Ok a /\ k a = Ok b.
Proof. destruct m; simpl; intros H; try discriminate; eauto. Qed.

Lemma exec_bind_inv_OutOfFuel {A B : Type} (m : exec A) (k : A -> exec B) :
  exec_bind m k = OutOfFuel -> m = OutOfFuel \/ exists a, m = Ok a /\ k a = OutOfFuel.
Proof. destruct m; simpl; intros H; try discriminate; eauto. Qed.

(** ** Shared lemmas on iteration and lists *)

Lemma iter_shift {A : Type} (f : A -> A) (n : nat) (x : A) :
  Nat.iter n f (f x) = f (Nat.iter n f x).
Proof. induction n as [|n IH]; simpl; congruence. Qed.

Lemma iter_ext {A : Type} (f g : A -> A) (n : nat) (x : A) :
  (forall y, f y = g y) -> Nat.iter n f x = Nat.iter n g x.
Proof. intros E. induction n as [|n IH]; simpl; congruence. Qed.

Lemma iter_const_after_one {A : Type} (f : A -> A) (n : nat) (x : A) :
  (forall y z, f y = f z) -> Nat.iter (S n) f x = f x.
Proof.
  intros Hconst. induction n as [|n IH]; [reflexivity|].
  simpl in *. rewrite IH. apply Hconst.
Qed.

Lemma app_cons_assoc {A : Type} (l1 l2 : list A) (a : A) :
  l1 ++ a :: l2 = (l1 ++ [a]) ++ l2.
Proof. rewrite <- app_assoc. reflexivity. Qed.

Lemma forallb_flat_map {A B : Type} (f : B -> bool) (g : A -> list B) (l : list A) :
  forallb f (flat_map g l) = forallb (fun x => forallb f (g x)) l.
Proof. induction l as [|x l IH]; cbn; [reflexivity | rewrite forallb_app, IH; reflexivity]. Qed.

(** ** Strings *)

Lemma str_append_assoc (a b c : string) : ((a ++ b) ++ c)%string = (a ++ (b ++ c))%string.
Proof. induction a as [|x a IH]; cbn; [reflexivity | f_equal; exact IH]. Qed.

Lemma str_append_nil_r (a : string) : (a ++ "")%string = a.
Proof. induction a as [|x a IH]; cbn; [reflexivity | f_equal; exact IH]. Qed.

Lemma str_length_append (a b : string) :
  String.length (a ++ b) = (String.length a + String.length b)%nat.
Proof. induction a as [|x a IH]; cbn; [reflexivity | f_equal; exact IH]. Qed.

#[export] Hint Resolve exec_bind_inv_Ok : heun.

(** [exec_step] rewrites the bind equations everywhere. *)
Ltac exec_step := autorewrite with exec in *.
