(* ===== verification/Number.v ===== *)
(** * The JavaScript number interface the handler is written against

    [solveEulerModified] uses a handful of operations on JavaScript numbers:
    [+ - * /], [<], [Math.ceil], the literals [0], [1] and [2],
    [Number.prototype.toFixed] (through [formatNumber]) and the conversion
    [String(x)] that a template literal applies to [n], [c] and the loop
    counters, and the conversions [parseFloat] and [parseInt] end with
    ([NaN], an infinity, or the number nearest a decimal value).
    [JSNumber] collects them. The solver in [Stepper] is written
    once against this class, and its theorems are proved against it.

    This file also defines what a loop [for (let i = 0; i < n; i++)] does
    with its counter. The counter takes the values [counter j], that is
    [0], [0 + 1], [(0 + 1) + 1], .... [trips n k] says that the loop body
    runs exactly [k] times. [unbounded n] says that the loop condition
    never becomes false. *)

From Stdlib Require Import String List PeanoNat Lia Bool QArith.
Local Open Scope nat_scope.
From S2P Require Import Prelude.
Import ListNotations.

Class JSNumber (R : Type) := {
  js_add : R -> R -> R;
  js_sub : R -> R -> R;
  js_mul : R -> R -> R;
  js_div : R -> R -> R;
  js_lt : R -> R -> bool;
  js_ceil : R -> R;
  js_zero : R;
  js_one : R;
  js_two : R;
  js_toFixed : R -> nat -> string;
  js_toString : R -> string;
  js_nan : R;
  js_infinity : bool -> R;   (* [true]: [-Infinity] *)
  js_of_Q : Q -> R           (* the Number value of a decimal literal *)
}.

Declare Scope js_scope.
Delimit Scope js_scope with js.
Infix "+" := js_add : js_scope.
Infix "-" := js_sub : js_scope.
Infix "*" := js_mul : js_scope.
Infix "/" := js_div : js_scope.
Infix "<?" := js_lt (at level 70) : js_scope.

Section Counting.
Context {R : Type} `{JSNumber R}.
Local Open Scope js_scope.

(** The value of a loop counter [i] after [j] executions of [i++]. *)
Definition counter (j : nat) : R := Nat.iter j (fun i => i + js_one) js_zero.

(** The loop [for (let i = 0; i < n; i++)] runs its body exactly [k]
    times. *)
Definition trips (n : R) (k : nat) : Prop :=
  (forall j, j < k -> (counter j <? n) = true) /\ (counter k <? n) = false.

(** The loop condition never fails: the loop does not terminate by
    itself. *)
Definition unbounded (n : R) : Prop := forall j, (counter j <? n) = true.

Definition trips_b (n : R) (k : nat) : bool :=
  forallb (fun j => counter j <? n) (seq 0 k) && negb (counter k <? n).

Lemma counter_succ (j : nat) : counter (S j) = counter j + js_one.
Proof. reflexivity. Qed.

Lemma counter_zero : counter 0 = js_zero.
Proof. reflexivity. Qed.

Lemma trips_b_spec (n : R) (k : nat) : trips_b n k = true <-> trips n k.
Proof.
  unfold trips_b, trips. rewrite andb_true_iff, forallb_forall, negb_true_iff.
  split; intros [Hall Hk]; split; auto.
  - intros j Hj. apply Hall, in_seq. lia.
  - intros j Hj%in_seq. apply Hall. lia.
Qed.

Lemma trips_unique (n : R) (k k' : nat) : trips n k -> trips n k' -> k = k'.
Proof.
  intros [H1 E1] [H2 E2].
  destruct (Nat.lt_trichotomy k k') as [Hlt|[Heq|Hgt]]; auto.
  - rewrite H2 in E1 by exact Hlt. discriminate.
  - rewrite H1 in E2 by exact Hgt. discriminate.
Qed.

Lemma unbounded_not_trips (n : R) (k : nat) : unbounded n -> ~ trips n k.
Proof. intros Hu [_ Hk]. rewrite Hu in Hk. discriminate. Qed.

(** A loop whose first test fails runs zero times. *)
Lemma trips_zero (n : R) : (js_zero <? n) = false -> trips n 0.
Proof. intros Hn. split; [intros j Hj; lia | exact Hn]. Qed.
End Counting.

Arguments counter : simpl never.

#[export] Hint Resolve trips_zero : heun.
