(* ===== verification/Format.v ===== *)
(** * Number formatting on exact values: [toFixed] and integer [ToString]

    [formatNumber] (line 51 of [src/app/(tabs)/index.tsx]) is
    [Number.prototype.toFixed(precision)]. ECMA-262 specifies [toFixed]
    on the exact mathematical value of the number, so it is defined here
    on [Q] ([toFixed_with]). Both number instances use it. A binary64
    value is a dyadic rational, and [Float64] passes its exact value.

    The specification's steps (ECMA-262, Number.prototype.toFixed):
    - if [x < 0], the result is ["-"] followed by the result for [-x];
    - if [x >= 10^21], the result is [ToString(x)] (the [big] argument,
      which the instance supplies);
    - otherwise [n] is the integer that minimises [|n / 10^f - x|], the
      larger one on a tie. Its digits get a decimal point inserted [f]
      places from the right, after zero padding to at least [f + 1]
      digits.

    [Z_to_decimal] is [ToString] on an integer value below [10^21] (the
    [${n}] and [${c}] of lines 74-75 and the step and correction numbers). *)

From Stdlib Require Import ZArith QArith Qround Qabs String Ascii List Lia DecimalString.
From S2P Require Import Prelude.
Import ListNotations.
Local Open Scope string_scope.

(** The decimal digits of a natural number, without leading zeros (["0"]
    for 0). *)
Definition N_to_decimal (n : N) : string := NilZero.string_of_uint (N.to_uint n).

(** [ToString] on an integer value: a minus sign for a negative one. *)
Definition Z_to_decimal (z : Z) : string :=
  match z with
  | Z0 => "0"
  | Zpos p => N_to_decimal (Npos p)
  | Zneg p => "-" ++ N_to_decimal (Npos p)
  end.

Fixpoint zeros (k : nat) : string :=
  match k with
  | O => EmptyString
  | S k' => String "0" (zeros k')
  end.

(** Step 9.a: the integer [n] closest to [x * 10^f], the larger on a tie,
    for [x >= 0]. *)
Definition round_fixed (x : Q) (f : nat) : Z :=
  Qfloor (x * inject_Z (10 ^ Z.of_nat f) + (1 # 2)).

(** Steps 9.b and 9.c: the digits of [n] with a decimal point [f] places
    from the right. *)
Definition fixed_digits (n : Z) (f : nat) : string :=
  let m := Z_to_decimal n in
  match f with
  | O => m
  | S _ =>
      let m := if Nat.leb (String.length m) f then zeros (S f - String.length m) ++ m else m in
      let k := String.length m in
      substring 0 (k - f) m ++ "." ++ substring (k - f) f m
  end.

(** Steps 2-3: [toFixed] throws a [RangeError] unless its argument is
    an integer in [0..100]. *)
Definition toFixed_digits_ok (f : Z) : bool := (0 <=? f)%Z && (f <=? 100)%Z.

Definition e21 : Q := inject_Z (10 ^ 21).

(** [toFixed] for a non-negative [x]: steps 8 and 9. *)
Definition toFixed_nonneg (big : Q -> string) (x : Q) (f : nat) : string :=
  if Qle_bool e21 x then big x else fixed_digits (round_fixed x f) f.

(** [x.toFixed(f)] for a finite [x] with exact value [x]. *)
Definition toFixed_with (big : Q -> string) (x : Q) (f : nat) : string :=
  if Qlt_le_dec x 0 then "-" ++ toFixed_nonneg big (- x) f
  else toFixed_nonneg big x f.

(** ** [toFixed] depends on the value only *)

Lemma toFixed_nonneg_compat (big : Q -> string) (x y : Q) (f : nat) :
  (forall a b, a == b -> big a = big b) -> x == y ->
  toFixed_nonneg big x f = toFixed_nonneg big y f.
Proof.
  intros Hbig E. unfold toFixed_nonneg, round_fixed.
  replace (Qle_bool e21 x) with (Qle_bool e21 y)
    by (apply eq_true_iff_eq; rewrite !Qle_bool_iff, E; reflexivity).
  destruct (Qle_bool e21 y); [apply Hbig, E|].
  rewrite (Qfloor_comp _ (y * inject_Z (10 ^ Z.of_nat f) + (1 # 2))); [reflexivity|].
  rewrite E. reflexivity.
Qed.

Lemma toFixed_with_compat (big : Q -> string) (x y : Q) (f : nat) :
  (forall a b, a == b -> big a = big b) -> x == y ->
  toFixed_with big x f = toFixed_with big y f.
Proof.
  intros Hbig E. unfold toFixed_with.
  destruct (Qlt_le_dec x 0) as [Hx|Hx]; destruct (Qlt_le_dec y 0) as [Hy|Hy];
    rewrite E in Hx.
  - f_equal. apply toFixed_nonneg_compat; [exact Hbig|]. rewrite E. reflexivity.
  - exfalso. apply (Qlt_not_le _ _ Hx Hy).
  - exfalso. apply (Qlt_not_le _ _ Hy Hx).
  - apply toFixed_nonneg_compat; assumption.
Qed.

Lemma round_fixed_compat (x y : Q) (f : nat) : (x == y)%Q -> round_fixed x f = round_fixed y f.
Proof. intros E. unfold round_fixed. apply Qfloor_comp. rewrite E. reflexivity. Qed.

Lemma round_fixed_nonneg (x : Q) (f : nat) : (0 <= x)%Q -> (0 <= round_fixed x f)%Z.
Proof.
  intros Hx. unfold round_fixed. change 0%Z with (Qfloor 0). apply Qfloor_resp_le.
  apply (Qle_trans _ (0 + 0)); [discriminate|]. apply Qplus_le_compat; [|discriminate].
  apply Qmult_le_0_compat; [exact Hx|]. unfold Qle; cbn. lia.
Qed.

(** [toFixed] on a number below [10^21] in magnitude: the sign, then
    the digits of [round_fixed |x| f]. *)
Lemma toFixed_with_small (big : Q -> string) (x : Q) (f : nat) :
  (Qabs x < e21)%Q ->
  toFixed_with big x f =
  ((if Qlt_le_dec x 0 then "-" else "") ++ fixed_digits (round_fixed (Qabs x) f) f)%string.
Proof.
  intros Hx. unfold toFixed_with, toFixed_nonneg.
  destruct (Qlt_le_dec x 0) as [Hneg|Hpos].
  - assert (Ha : (Qabs x == - x)%Q) by (apply Qabs_neg, Qlt_le_weak, Hneg).
    rewrite Ha in Hx. rewrite (round_fixed_compat _ _ f Ha).
    destruct (Qle_bool e21 (- x)) eqn:E; [|reflexivity].
    apply Qle_bool_iff in E. exfalso. apply (Qlt_not_le _ _ Hx E).
  - assert (Ha : (Qabs x == x)%Q) by (apply Qabs_pos, Hpos).
    rewrite Ha in Hx. rewrite (round_fixed_compat _ _ f Ha).
    destruct (Qle_bool e21 x) eqn:E; [|reflexivity].
    apply Qle_bool_iff in E. exfalso. apply (Qlt_not_le _ _ Hx E).
Qed.
