(* ===== verification/Exact.v ===== *)
(** * Exact arithmetic: an idealised instance of [JSNumber]

    A JavaScript number is a binary64 value (see [Float64]). This instance
    keeps what IEEE 754 does with infinities and NaN, but computes on
    finite values without rounding: a number is a rational, [+Infinity],
    [-Infinity] or [NaN]. The theorems proved against [JSNumber] hold on
    binary64 too; this instance is used for what depends on values: the
    step count [Math.ceil((xf - x0) / h)], the divergence for [h = 0],
    the input validation of [Calculator], and the witnesses. Rounding and
    the sign of zero are not represented.
    [String(x)] prints the digits of an integer value, and otherwise the
    value rounded to 20 places (binary64 would print the shortest
    round-trip digits).

    Finite results are kept in lowest terms ([Qred]), which keeps the
    evaluation of long runs fast. Rationals are compared with [Qeq], so
    [xeq] is the equality of this model, and the operations are [Proper]
    for it. *)

From Stdlib Require Import ZArith QArith Qround Qabs String List Lia Bool.
From Stdlib Require Import Morphisms RelationClasses Setoid.
From S2P Require Import Prelude Number Format.
Import ListNotations.

Inductive xnum : Type :=
| Fin (q : Q)
| PInf
| NInf
| NaN.

Definition xneg (x : xnum) : xnum :=
  match x with
  | Fin q => Fin (- q)
  | PInf => NInf
  | NInf => PInf
  | NaN => NaN
  end.

Definition xadd (x y : xnum) : xnum :=
  match x, y with
  | Fin a, Fin b => Fin (Qred (a + b))
  | NaN, _ | _, NaN => NaN
  | PInf, NInf | NInf, PInf => NaN
  | PInf, _ | _, PInf => PInf
  | NInf, _ | _, NInf => NInf
  end.

Definition xsub (x y : xnum) : xnum := xadd x (xneg y).

(** The sign of a rational, as the infinity it multiplies to. *)
Definition inf_of_sign (a : Q) (pos : bool) : xnum :=
  match Qcompare a 0 with
  | Gt => if pos then PInf else NInf
  | Lt => if pos then NInf else PInf
  | Eq => NaN
  end.

Definition xmul (x y : xnum) : xnum :=
  match x, y with
  | Fin a, Fin b => Fin (Qred (a * b))
  | NaN, _ | _, NaN => NaN
  | Fin a, PInf | PInf, Fin a => inf_of_sign a true
  | Fin a, NInf | NInf, Fin a => inf_of_sign a false
  | PInf, PInf | NInf, NInf => PInf
  | PInf, NInf | NInf, PInf => NInf
  end.

(** Division by zero gives an infinity of the sign of the dividend, and
    [0 / 0] is [NaN]. *)
Definition xdiv (x y : xnum) : xnum :=
  match x, y with
  | Fin a, Fin b => if Qeq_bool b 0 then inf_of_sign a true else Fin (Qred (a / b))
  | NaN, _ | _, NaN => NaN
  | Fin _, (PInf | NInf) => Fin 0
  | PInf, Fin b => if Qeq_bool b 0 then PInf else inf_of_sign b true
  | NInf, Fin b => if Qeq_bool b 0 then NInf else inf_of_sign b false
  | (PInf | NInf), (PInf | NInf) => NaN
  end.

(** [<] on rationals. *)
Definition qltb (a b : Q) : bool := negb (Qle_bool b a).

Lemma qltb_iff (a b : Q) : qltb a b = true <-> a < b.
Proof.
  unfold qltb. rewrite negb_true_iff, <- not_true_iff_false, Qle_bool_iff.
  split; [apply Qnot_le_lt | intros H1 H2; apply (Qlt_not_le _ _ H1 H2)].
Qed.

Definition xlt (x y : xnum) : bool :=
  match x, y with
  | Fin a, Fin b => qltb a b
  | NaN, _ | _, NaN => false
  | NInf, NInf => false
  | NInf, _ => true
  | _, PInf => negb (match x with PInf => true | _ => false end)
  | _, _ => false
  end.

Definition xceil (x : xnum) : xnum :=
  match x with
  | Fin q => Fin (inject_Z (Qceiling q))
  | _ => x
  end.

Definition exact_big (q : Q) : string := Z_to_decimal (Qfloor q).

Definition xtoString (x : xnum) : string :=
  match x with
  | Fin q =>
      if Qeq_bool q (inject_Z (Qfloor q)) then Z_to_decimal (Qfloor q)
      else toFixed_with exact_big q 20
  | PInf => "Infinity"
  | NInf => "-Infinity"
  | NaN => "NaN"
  end.

Definition xtoFixed (x : xnum) (d : nat) : string :=
  match x with
  | Fin q => toFixed_with exact_big q d
  | PInf => "Infinity"
  | NInf => "-Infinity"
  | NaN => "NaN"
  end.

#[export] Instance exact_number : JSNumber xnum := {
  js_add := xadd; js_sub := xsub; js_mul := xmul; js_div := xdiv;
  js_lt := xlt; js_ceil := xceil;
  js_zero := Fin 0; js_one := Fin 1; js_two := Fin 2;
  js_toFixed := xtoFixed; js_toString := xtoString;
  js_nan := NaN; js_infinity := fun neg => if neg then NInf else PInf;
  js_of_Q := fun q => Fin (Qred q)
}.

(** ** Equality of the model *)

Definition xeq (x y : xnum) : Prop :=
  match x, y with
  | Fin a, Fin b => a == b
  | PInf, PInf | NInf, NInf | NaN, NaN => True
  | _, _ => False
  end.

#[export] Instance xeq_equiv : Equivalence xeq.
Proof.
  split.
  - intros []; simpl; auto. reflexivity.
  - intros [] []; simpl; auto. symmetry; auto.
  - intros [] [] []; simpl; try tauto. intros; etransitivity; eauto.
Qed.

Lemma inf_of_sign_proper (a b : Q) (s : bool) : a == b -> inf_of_sign a s = inf_of_sign b s.
Proof. intros E. unfold inf_of_sign. rewrite E. reflexivity. Qed.

Ltac xnum_cases :=
  repeat match goal with
         | x : xnum |- _ => destruct x
         end; cbn [xeq xadd xneg xsub xmul xlt] in *; try tauto.

(** Two reduced forms of equal rationals are equal. *)
Ltac qred_congr :=
  match goal with
  | |- Qred ?a == Qred ?b => rewrite (Qred_complete a b); [reflexivity|]
  end;
  match goal with
  | Ex : ?x == ?x', Ey : ?y == ?y' |- _ => rewrite Ex, Ey; reflexivity
  end.

#[export] Instance xadd_proper : Proper (xeq ==> xeq ==> xeq) xadd.
Proof. intros x x' Ex y y' Ey. xnum_cases. qred_congr. Qed.

#[export] Instance xneg_proper : Proper (xeq ==> xeq) xneg.
Proof. intros x x' Ex. xnum_cases. rewrite Ex. reflexivity. Qed.

#[export] Instance xsub_proper : Proper (xeq ==> xeq ==> xeq) xsub.
Proof. intros x x' Ex y y' Ey. unfold xsub. rewrite Ex, Ey. reflexivity. Qed.

#[export] Instance xmul_proper : Proper (xeq ==> xeq ==> xeq) xmul.
Proof.
  intros x x' Ex y y' Ey. xnum_cases;
    try (rewrite (inf_of_sign_proper _ _ _ Ex) || rewrite (inf_of_sign_proper _ _ _ Ey));
    try reflexivity.
  qred_congr.
Qed.

Lemma qltb_compat (a a' b b' : Q) : a == a' -> b == b' -> qltb a b = qltb a' b'.
Proof.
  intros Ea Eb. apply eq_true_iff_eq. rewrite !qltb_iff, Ea, Eb. reflexivity.
Qed.

#[export] Instance xlt_proper : Proper (xeq ==> xeq ==> eq) xlt.
Proof. intros x x' Ex y y' Ey. xnum_cases. apply qltb_compat; assumption. Qed.

#[export] Instance xtoFixed_proper : Proper (xeq ==> eq ==> eq) xtoFixed.
Proof.
  intros x x' Ex d d' <-. xnum_cases; cbn [xtoFixed]; try reflexivity.
  apply toFixed_with_compat; [|exact Ex].
  intros a b E. unfold exact_big. rewrite (Qfloor_comp a b E). reflexivity.
Qed.

(** ** Loop counters and trip counts *)

Lemma Qred_inject_Z (z : Z) : Qred (inject_Z z) = inject_Z z.
Proof.
  unfold Qred, inject_Z. cbn [Qnum Qden].
  pose proof (Z.ggcd_gcd z 1) as Hg. pose proof (Z.ggcd_correct_divisors z 1) as Hd.
  destruct (Z.ggcd z 1) as [g [a b]]. cbn in *. rewrite Z.gcd_1_r in Hg. subst g.
  destruct Hd as [Hz Hb]. rewrite Z.mul_1_l in Hz, Hb. subst. reflexivity.
Qed.

Lemma counter_exact (j : nat) : counter j = Fin (inject_Z (Z.of_nat j)).
Proof.
  induction j as [|j IH]; [reflexivity|].
  rewrite counter_succ, IH.
  change (Fin (Qred (inject_Z (Z.of_nat j) + 1)) = Fin (inject_Z (Z.of_nat (S j)))).
  f_equal. rewrite <- (Qred_inject_Z (Z.of_nat (S j))). apply Qred_complete.
  rewrite Nat2Z.inj_succ, <- Z.add_1_r, inject_Z_plus. reflexivity.
Qed.

Lemma qltb_inject_Z (a b : Z) : qltb (inject_Z a) (inject_Z b) = (a <? b)%Z.
Proof.
  apply eq_true_iff_eq. rewrite qltb_iff, Z.ltb_lt, Zlt_Qlt. reflexivity.
Qed.

(** The loop [for (let i = 0; i < z; i++)] on an integer [z] runs [z]
    times, and no time when [z <= 0]. *)
Lemma trips_exact_int (z : Z) : trips (Fin (inject_Z z)) (Z.to_nat z).
Proof.
  split.
  - intros j Hj. rewrite counter_exact. cbn. rewrite qltb_inject_Z. apply Z.ltb_lt. lia.
  - rewrite counter_exact. cbn. rewrite qltb_inject_Z. apply Z.ltb_ge. lia.
Qed.

Lemma unbounded_PInf : unbounded PInf.
Proof. intros j. rewrite counter_exact. reflexivity. Qed.

(** [Math.ceil((xf - x0) / h)] for a non-zero [h]. *)
Lemma step_count_exact (x0 xf h : Q) :
  ~ h == 0 ->
  js_ceil ((Fin xf - Fin x0) / Fin h)%js = Fin (inject_Z (Qceiling ((xf - x0) / h))).
Proof.
  intros Hh. change (xceil (xdiv (xadd (Fin xf) (Fin (- x0))) (Fin h)) =
    Fin (inject_Z (Qceiling ((xf - x0) / h)))).
  unfold xdiv, xadd. destruct (Qeq_bool h 0) eqn:E.
  - apply Qeq_bool_iff in E. contradiction.
  - unfold xceil. do 2 f_equal. apply Qceiling_comp. rewrite !Qred_correct. reflexivity.
Qed.

(** [(xf - x0) / 0] is [+Infinity] when [x0 < xf]. *)
Lemma step_count_exact_zero (x0 xf : Q) :
  x0 < xf -> js_ceil ((Fin xf - Fin x0) / Fin 0)%js = PInf.
Proof.
  intros Hlt. change (xceil (xdiv (xadd (Fin xf) (Fin (- x0))) (Fin 0)) = PInf).
  unfold xdiv, xadd, inf_of_sign. cbn [Qeq_bool Z.eqb Qnum Qden].
  replace (Qred (xf + - x0) ?= 0) with Gt; [reflexivity|].
  symmetry. apply Qgt_alt. rewrite Qred_correct. apply Qlt_minus_iff in Hlt. exact Hlt.
Qed.

(** The step loop's trip count for a non-zero [h]. *)
Lemma trips_step_count (x0 xf h : Q) :
  ~ h == 0 ->
  trips (js_ceil ((Fin xf - Fin x0) / Fin h)%js) (Z.to_nat (Qceiling ((xf - x0) / h))).
Proof. intros Hh. rewrite step_count_exact by exact Hh. apply trips_exact_int. Qed.
