(* ===== verification/Evaluator.v ===== *)
(** * The evaluator adapter: the closure [f] of [solveEulerModified]

    Lines 67-70 of [src/app/(tabs)/index.tsx]:
    [const expr = equation.replace("y'", '').replace('=', '').trim();
     return evaluate(expr, { x, y });]

    A JavaScript string is modelled as a Rocq [string], read as the UTF-8
    bytes of the text. The patterns ["y'"] and ["="] are ASCII. In UTF-8
    an ASCII byte never occurs inside the encoding of another character,
    so the first occurrence found in the bytes is the first occurrence
    found in JavaScript's UTF-16 code units. [trim] removes the ECMAScript
    WhiteSpace and LineTerminator code points, each given by its UTF-8
    bytes.

    [evaluate] is mathjs, a library the sources only call. It is a section
    variable [string -> R -> R -> option R]. [None] covers the two ways the
    handler's [try] block fails on a call: [evaluate] throws (a parse error,
    an undefined symbol), or it returns something that is not a number (a
    boolean, a complex number, a matrix, [undefined]), on which
    [formatNumber] throws a [TypeError] a few lines later (lines 84 and
    94), before anything is observable. Each call gets a fresh scope object
    [{ x, y }], so an assignment inside the expression cannot leak from one
    call to the next. That is why [evaluate] is a pure function here. *)

From Stdlib Require Import String Ascii List PeanoNat Lia.
From S2P Require Import Prelude.
Import ListNotations.
Local Open Scope string_scope.

(** ** [String.prototype.replace] with a string pattern *)

Fixpoint str_drop (n : nat) (s : string) : string :=
  match n, s with
  | O, _ => s
  | S _, EmptyString => EmptyString
  | S n', String _ s' => str_drop n' s'
  end.

(** [s.replace(pat, rep)]: only the first occurrence of [pat] is
    replaced; when there is none, [s] is returned unchanged. *)
Definition js_replace (s pat rep : string) : string :=
  match index 0 pat s with
  | None => s
  | Some i => substring 0 i s ++ rep ++ str_drop (i + String.length pat) s
  end.

(** ** [String.prototype.trim] *)

Definition bytes (l : list nat) : string :=
  fold_right (fun n acc => String (ascii_of_nat n) acc) EmptyString l.

(** ECMAScript WhiteSpace (TAB, VT, FF, ZWNBSP and the category Zs) and
    LineTerminator (LF, CR, LS, PS), as UTF-8 byte sequences. *)
Definition js_whitespace : list string :=
  [bytes [9]; bytes [10]; bytes [11]; bytes [12]; bytes [13]; bytes [32];
   bytes [194; 160];                           (* U+00A0 *)
   bytes [225; 154; 128];                      (* U+1680 *)
   bytes [226; 128; 128]; bytes [226; 128; 129]; bytes [226; 128; 130];
   bytes [226; 128; 131]; bytes [226; 128; 132]; bytes [226; 128; 133];
   bytes [226; 128; 134]; bytes [226; 128; 135]; bytes [226; 128; 136];
   bytes [226; 128; 137]; bytes [226; 128; 138]; (* U+2000 .. U+200A *)
   bytes [226; 128; 168]; bytes [226; 128; 169]; (* U+2028, U+2029 *)
   bytes [226; 128; 175];                      (* U+202F *)
   bytes [226; 129; 159];                      (* U+205F *)
   bytes [227; 128; 128];                      (* U+3000 *)
   bytes [239; 187; 191]].                     (* U+FEFF *)

Fixpoint str_rev (s : string) : string :=
  match s with
  | EmptyString => EmptyString
  | String a s' => str_rev s' ++ String a EmptyString
  end.

(** Remove leading sequences of [ws]; one unit of fuel per removed
    sequence, and [String.length s] units are enough (see [trim_start_fuel]). *)
Fixpoint strip_leading (ws : list string) (fuel : nat) (s : string) : string :=
  match fuel with
  | O => s
  | S fuel' =>
      match find (fun w => prefix w s) ws with
      | Some w => strip_leading ws fuel' (str_drop (String.length w) s)
      | None => s
      end
  end.

Definition trim_start (s : string) : string :=
  strip_leading js_whitespace (String.length s) s.

(** Trailing whitespace is leading whitespace of the reversed bytes. *)
Definition trim_end (s : string) : string :=
  str_rev (strip_leading (map str_rev js_whitespace) (String.length s) (str_rev s)).

Definition js_trim (s : string) : string := trim_end (trim_start s).

(** ** The closure [f] *)

(** Line 68: [equation.replace("y'", '').replace('=', '').trim()]. *)
Definition strip_equation (equation : string) : string :=
  js_trim (js_replace (js_replace equation "y'" "") "=" "").

Section Adapter.
Context {R : Type}.
Variable evaluate : string -> R -> R -> option R.

(** Lines 67-70: the expression is stripped again on every call, and
    [evaluate] gets the scope [{x, y}]. *)
Definition f (equation : string) (x y : R) : option R :=
  evaluate (strip_equation equation) x y.
End Adapter.

(** ** Properties of the preprocessing *)

Lemma prefix_empty (s : string) : prefix "" s = true.
Proof. destruct s; reflexivity. Qed.

(** A leading space is leading whitespace. *)
Lemma trim_start_space (e : string) : trim_start (String " " e) = trim_start e.
Proof. unfold trim_start. cbn. rewrite prefix_empty. reflexivity. Qed.

(** ** What [trim_start] removes *)

Lemma prefix_app (w s : string) : prefix w s = true -> s = w ++ str_drop (String.length w) s.
Proof.
  revert s. induction w as [|a w IH]; intros [|b s] H; cbn in *; try discriminate; try reflexivity.
  destruct (ascii_dec a b) as [<-|]; [|discriminate]. f_equal. apply IH, H.
Qed.

Lemma str_drop_length (n : nat) (s : string) : String.length (str_drop n s) = String.length s - n.
Proof. revert s. induction n; intros [|a s]; cbn; auto; lia. Qed.

Lemma js_whitespace_nonempty (w : string) : In w js_whitespace -> 0 < String.length w.
Proof. intros H. repeat (destruct H as [<-|H]; [cbn; lia|]). contradiction. Qed.

Lemma strip_leading_empty (fuel : nat) : strip_leading js_whitespace fuel "" = "".
Proof. destruct fuel; reflexivity. Qed.

(** What [strip_leading] removes: whitespace sequences, after which none
    is left, when the fuel is at least the length. *)
Lemma strip_leading_spec (fuel : nat) (s : string) :
  String.length s <= fuel ->
  exists ws, Forall (fun w => In w js_whitespace) ws /\
    s = fold_right append "" ws ++ strip_leading js_whitespace fuel s /\
    find (fun w => prefix w (strip_leading js_whitespace fuel s)) js_whitespace = None.
Proof.
  revert s. induction fuel as [|fuel IH]; intros s Hs.
  - destruct s; [|cbn in Hs; lia]. exists []. split; [constructor|]. split; reflexivity.
  - cbn [strip_leading]. destruct (find (fun w => prefix w s) js_whitespace) as [w|] eqn:E.
    + apply find_some in E as [Hin Hp].
      pose proof (prefix_app _ _ Hp) as Hs'. pose proof (js_whitespace_nonempty _ Hin).
      destruct (IH (str_drop (String.length w) s)) as (ws & Hws & Heq & Hnone);
        [rewrite str_drop_length; lia|].
      exists (w :: ws). split; [constructor; assumption|]. split; [|exact Hnone].
      rewrite Hs' at 1. rewrite Heq at 1. cbn [fold_right]. rewrite str_append_assoc. reflexivity.
    + exists []. split; [constructor|]. split; [reflexivity | exact E].
Qed.

(** Fuel beyond the length of the string changes nothing. *)
Lemma strip_leading_fuel (fuel fuel' : nat) (s : string) :
  String.length s <= fuel -> String.length s <= fuel' ->
  strip_leading js_whitespace fuel s = strip_leading js_whitespace fuel' s.
Proof.
  revert fuel' s. induction fuel as [|fuel IH]; intros fuel' s Hf Hf'.
  - destruct s; [rewrite !strip_leading_empty; reflexivity | cbn in Hf; lia].
  - destruct s as [|a s']; [rewrite !strip_leading_empty; reflexivity|].
    destruct fuel' as [|fuel']; [cbn in Hf'; lia|].
    cbn [strip_leading]. destruct (find _ js_whitespace) as [w|] eqn:E; [|reflexivity].
    apply find_some in E as [Hin _]. pose proof (js_whitespace_nonempty _ Hin).
    apply IH; rewrite str_drop_length; cbn [String.length] in *; lia.
Qed.

Lemma trim_start_fuel (fuel : nat) (s : string) :
  String.length s <= fuel -> strip_leading js_whitespace fuel s = trim_start s.
Proof. intros Hf. apply strip_leading_fuel; [exact Hf | apply le_n]. Qed.

(** [trim_start] (the first half of [trim], and the first step of
    [parseFloat] and [parseInt]) removes exactly a sequence of
    WhiteSpace and LineTerminator code points. The input is that
    sequence followed by the result, and the result starts with none of
    them. *)
Theorem trim_start_spec (s : string) :
  exists ws, Forall (fun w => In w js_whitespace) ws /\
    s = (fold_right append "" ws ++ trim_start s)%string /\
    forall w, In w js_whitespace -> prefix w (trim_start s) = false.
Proof.
  destruct (strip_leading_spec (String.length s) s (le_n _)) as (ws & Hws & Heq & Hnone).
  exists ws. split; [exact Hws|]. split; [exact Heq|].
  intros w Hw. exact (find_none _ _ Hnone w Hw).
Qed.

(** C10. On an equation written [y' = e], the preprocessing yields [e]
    without its surrounding whitespace, whatever [e] contains (other
    [y'] or [=] included): only the first occurrence of each marker is
    removed. *)
Theorem strip_equation_marker (e : string) :
  strip_equation ("y' = " ++ e) = js_trim e.
Proof.
  unfold strip_equation.
  replace (js_replace (js_replace ("y' = " ++ e) "y'" "") "=" "") with (String " " (String " " e))
    by (unfold js_replace; cbn; reflexivity).
  unfold js_trim. rewrite !trim_start_space. reflexivity.
Qed.

(** The default equation of the calculator. *)
Example strip_equation_default : strip_equation "y' = x + y" = "x + y".
Proof. vm_compute. reflexivity. Qed.
