(* ===== verification/Parse.v ===== *)
(** * [parseFloat] and [parseInt]: lines 55-59 of [index.tsx]

    The handler reads its five text fields with [parseFloat]
    ([initialX], [initialY], [stepSize], [finalX]) and [parseInt]
    ([corrections]). Both follow ECMA-262 (sections "parseFloat (string)"
    and "parseInt (string, radix)"):
    - both skip leading WhiteSpace and LineTerminator ([trim_start] of
      [Evaluator]);
    - [parseFloat] reads the longest prefix that is a StrDecimalLiteral:
      an optional sign, then [Infinity] or decimal digits with an optional
      fraction and an optional exponent. With no such prefix the result is
      [NaN];
    - [parseInt] without a radix reads an optional sign, then a [0x] or
      [0X] prefix (radix 16) or nothing (radix 10), then the longest run of
      digits of that radix. With no digit the result is [NaN].

    The mathematical value of the literal is computed exactly ([Z] and
    [Q]). The instance turns it into a number ([js_of_Q]: rounding for
    binary64, nothing for exact numbers). The sign of a zero ([-0]) is not
    kept. *)

From Stdlib Require Import String Ascii List ZArith QArith Lia.
From S2P Require Import Prelude Number Evaluator.
Import ListNotations.
Local Open Scope Z_scope.

(** The value of the character [a] as a digit of radix [radix] (digits,
    then letters of either case). *)
Definition digit_of (radix : Z) (a : ascii) : option Z :=
  let n := Z.of_nat (nat_of_ascii a) in
  let v :=
    if (48 <=? n) && (n <=? 57) then Some (n - 48)
    else if (97 <=? n) && (n <=? 122) then Some (n - 87)
    else if (65 <=? n) && (n <=? 90) then Some (n - 55)
    else None in
  match v with
  | Some d => if d <? radix then Some d else None
  | None => None
  end.

(** The longest prefix of digits of radix [radix], and the rest. *)
Fixpoint span_digits (radix : Z) (s : string) : list Z * string :=
  match s with
  | EmptyString => ([], EmptyString)
  | String a s' =>
      match digit_of radix a with
      | Some d => let '(ds, r) := span_digits radix s' in (d :: ds, r)
      | None => ([], s)
      end
  end.

Definition digits_value (radix : Z) (ds : list Z) : Z :=
  fold_left (fun acc d => acc * radix + d) ds 0.

(** An optional sign: [true] for ["-"]. *)
Definition take_sign (s : string) : bool * string :=
  match s with
  | String "-" r => (true, r)
  | String "+" r => (false, r)
  | _ => (false, s)
  end.

(** [parseInt(s)]: [None] is [NaN]. *)
Definition parse_int (s : string) : option Z :=
  let '(neg, s) := take_sign (trim_start s) in
  let '(radix, s) :=
    match s with
    | String "0" (String x r) =>
        if ((x =? "x") || (x =? "X"))%char then (16, r) else (10, s)
    | _ => (10, s)
    end in
  match span_digits radix s with
  | ([], _) => None
  | (ds, _) => Some ((if neg then -1 else 1) * digits_value radix ds)
  end.

(** A StrDecimalLiteral: [Infinity], or [m * 10^e], each with a sign. *)
Inductive literal : Type :=
| LInfinity (neg : bool)
| LDecimal (neg : bool) (m : Z) (e : Z).

(** The optional ExponentPart after the mantissa: it is part of the
    literal only when at least one digit follows [e] and the sign. *)
Definition take_exponent (s : string) : Z :=
  match s with
  | String e r =>
      if ((e =? "e") || (e =? "E"))%char then
        let '(neg, r') := take_sign r in
        match span_digits 10 r' with
        | ([], _) => 0
        | (ds, _) => (if neg then -1 else 1) * digits_value 10 ds
        end
      else 0
  | EmptyString => 0
  end.

(** The longest StrDecimalLiteral prefix of [s], if any. *)
Definition parse_float_literal (s : string) : option literal :=
  let '(neg, s) := take_sign s in
  if prefix "Infinity" s then Some (LInfinity neg) else
  let '(int, s1) := span_digits 10 s in
  let '(frac, s2) :=
    match s1 with
    | String "." r => span_digits 10 r
    | _ => ([], s1)
    end in
  match int, frac with
  | [], [] => None
  | _, _ =>
      Some (LDecimal neg (digits_value 10 (int ++ frac))
              (take_exponent s2 - Z.of_nat (length frac)))
  end.

(** The mathematical value [m * 10^e] with its sign. *)
Definition decimal_value (neg : bool) (m e : Z) : Q :=
  let q := if 0 <=? e then inject_Z (m * 10 ^ e) else Qmake m (Z.to_pos (10 ^ (- e))) in
  if neg then Qopp q else q.

Section Conversions.
Context {R : Type} `{JSNumber R}.

(** [parseFloat(s)]. *)
Definition parseFloat (s : string) : R :=
  match parse_float_literal (trim_start s) with
  | None => js_nan
  | Some (LInfinity neg) => js_infinity neg
  | Some (LDecimal neg m e) => js_of_Q (decimal_value neg m e)
  end.

(** [parseInt(s)]. *)
Definition parseInt (s : string) : R :=
  match parse_int s with
  | None => js_nan
  | Some z => js_of_Q (inject_Z z)
  end.
End Conversions.
