(* ===== verification/Stepper.v ===== *)
(** * The modified-Euler stepper: [solveEulerModified], lines 53-108

    The handler is written once against [JSNumber]. The right-hand side
    [f] (the closure [Evaluator.f]) is a section variable
    [R -> R -> option R]. [precision] is the value of [useSettings()] when
    the component rendered. The definitions follow the code block by
    block:
    - [correction_loop]: the [for (let j = 0; j < c; j++)] loop, lines 89-96;
    - [step_loop]: the [for (let i = 0; i < n; i++)] loop, lines 77-100;
    - [header]: the four [push]es of lines 72-75;
    - [try_body]: lines 61-102, without the parsing;
    - [solve]: the [try]/[catch] of lines 54 and 103-107, returning the
    array given to [setSolution] ([None] when the fuel runs out before
    the loops finish).

    The abstract specification is [heun_step], the recurrence of spec
    section 4.2 step 5 on a total right-hand side [g]. The theorems relate
    the loops to [Nat.iter] of it. *)

From Stdlib Require Import String Ascii List PeanoNat Lia.
From Stdlib Require Import ZArith QArith Qround Lqa.
From S2P Require Import Prelude Number Evaluator Exact.
Import ListNotations.
Local Open Scope nat_scope.

(** The [\n] that starts the step divider and the final line. *)
Definition nl : string := String (ascii_of_nat 10) EmptyString.

(** Line 106. *)
Definition error_message : string :=
  "Error solving equation. Please check your inputs."%string.

Section Stepper.
Context {R : Type} `{JSNumber R}.
Variable f : R -> R -> option R.
Variable precision : nat.
Local Open Scope exec_scope.
Local Open Scope js_scope.

(** Line 51: [const formatNumber = (num) => num.toFixed(precision)].
    [toFixed] throws a [RangeError] when [precision] is outside [0..100].
    Here [precision] is a [nat] and that check is not repeated at every
    call: the first call (line 72) comes before anything else in the
    [try] that can throw, so an out-of-range precision always ends in the
    error line, which [Calculator.solveEulerModified_js] decides once. *)
Definition formatNumber (num : R) : string := js_toFixed num precision.

(** Lines 72-75. *)
Definition header (x0 y0 h xf c n : R) : list string :=
  ["Starting with initial values: x₀ = " ++ formatNumber x0 ++ ", y₀ = "
   ++ formatNumber y0;
 "Target x value: " ++ formatNumber xf;
 "Using step size h = " ++ formatNumber h ++ " (" ++ js_toString n
   ++ " steps)";
 "Number of corrections per step: " ++ js_toString c]%string.

(** Lines 83-85, after [slope1] and [yp] are computed. *)
Definition predictor_lines (cx cy slope1 yp : R) : list string :=
  ["  Predictor:";
 "    f(" ++ formatNumber cx ++ ", " ++ formatNumber cy ++ ") = "
   ++ formatNumber slope1;
 "    Predicted y = " ++ formatNumber yp]%string.

(** Lines 93-95. [yCorrected] is printed after its update, so the
    second line shows the new value, not the point at which [slope2] was
    evaluated. *)
Definition correction_lines (j cx h yCorrected slope2 : R) : list string :=
  ["  Correction " ++ js_toString (j + js_one) ++ ":";
 "    f(" ++ formatNumber (cx + h) ++ ", " ++ formatNumber yCorrected
   ++ ") = " ++ formatNumber slope2;
 "    Corrected y = " ++ formatNumber yCorrected]%string.

(** Line 102. *)
Definition final_line (cx cy : R) : string :=
  (nl ++ "Final value: y(" ++ formatNumber cx ++ ") = " ++ formatNumber cy)%string.

(** Lines 89-96. [cx], [cy], [h] and [slope1] are fixed during the loop,
    and [c] is its bound. The loop state is [j], [yCorrected] and the
    trace. *)
Fixpoint correction_loop (fuel : nat) (c h cx cy slope1 : R)
    (j yCorrected : R) (trace : list string) : exec (R * list string) :=
  if j <? c then
    match fuel with
    | O => OutOfFuel
    | S fuel' =>
        let! slope2 := of_option (f (cx + h) yCorrected) in
        let yCorrected' := cy + (h / js_two) * (slope1 + slope2) in
        correction_loop fuel' c h cx cy slope1 (j + js_one) yCorrected'
          (trace ++ correction_lines j cx h yCorrected' slope2)
    end
  else Ok (yCorrected, trace).

(** Lines 77-100. The loop state is [i], [currentX], [currentY] and the
    trace. The inner loop gets the same fuel budget. *)
Fixpoint step_loop (fuel : nat) (n h c : R) (i currentX currentY : R)
    (trace : list string) : exec (R * R * list string) :=
  if i <? n then
    match fuel with
    | O => OutOfFuel
    | S fuel' =>
        let trace := trace ++ [(nl ++ "Step " ++ js_toString (i + js_one) ++ ":")%string] in
        let! slope1 := of_option (f currentX currentY) in
        let yp := currentY + h * slope1 in
        let trace := trace ++ predictor_lines currentX currentY slope1 yp in
        let! '(yCorrected, trace) :=
          correction_loop fuel c h currentX currentY slope1 js_zero yp trace in
        step_loop fuel' n h c (i + js_one) (currentX + h) yCorrected trace
    end
  else Ok (currentX, currentY, trace).

(** Lines 61-102, on the parsed inputs. *)
Definition try_body (fuel : nat) (x0 y0 h xf c : R) : exec (list string) :=
  let n := js_ceil ((xf - x0) / h) in
  let! '(currentX, currentY, trace) :=
    step_loop fuel n h c js_zero x0 y0 (header x0 y0 h xf c n) in
  Ok (trace ++ [final_line currentX currentY]).

(** Lines 54 and 103-107: an exception anywhere in the block replaces the
    whole trace by the error line. *)
Definition solve (fuel : nat) (x0 y0 h xf c : R) : option (list string) :=
  match try_body fuel x0 y0 h xf c with
  | Ok trace => Some trace
  | Thrown => Some [error_message]
  | OutOfFuel => None
  end.

(** ** The abstract specification: spec section 4.2 step 5 *)

(** For a right-hand side [g] that always returns a number: one
    corrector iteration, and one step with [m] corrections. The
    corrector reuses the first slope [slope1] and evaluates [g] at the
    latest corrected value. *)
Definition corrector (g : R -> R -> R) (h cx cy slope1 yc : R) : R :=
  cy + (h / js_two) * (slope1 + g (cx + h) yc).

Definition heun_step (g : R -> R -> R) (h : R) (m : nat) (p : R * R) : R * R :=
  let '(cx, cy) := p in
  let slope1 := g cx cy in
  (cx + h, Nat.iter m (corrector g h cx cy slope1) (cy + h * slope1)).

(** Euler's method, the [m = 0] instance. *)
Definition euler_step (g : R -> R -> R) (h : R) (p : R * R) : R * R :=
  let '(cx, cy) := p in (cx + h, cy + h * g cx cy).
End Stepper.

Section StepperProofs.
Context {R : Type} `{JSNumber R}.
Variable f : R -> R -> option R.
Variable precision : nat.
Local Open Scope exec_scope.
Local Open Scope js_scope.

(** ** A right-hand side that always returns a number *)
Section Total.
Variable g : R -> R -> R.
Hypothesis f_total : forall x y, f x y = Some (g x y).

(** The trace the correction loop pushes in [r] iterations, from
    counter value [j] and corrected value [yc]. *)
Fixpoint corr_trace (h cx cy slope1 : R) (r : nat) (j yc : R) : list string :=
  match r with
  | O => []
  | S r' =>
      let yc' := corrector g h cx cy slope1 yc in
      correction_lines precision j cx h yc' (g (cx + h) yc)
        ++ corr_trace h cx cy slope1 r' (j + js_one) yc'
  end.

Lemma correction_loop_trips (c h cx cy slope1 : R) (m : nat) :
  trips c m ->
  forall r j yc trace fuel, (j + r = m)%nat -> r <= fuel ->
  correction_loop f precision fuel c h cx cy slope1 (counter j) yc trace =
  Ok (Nat.iter r (corrector g h cx cy slope1) yc,
      trace ++ corr_trace h cx cy slope1 r (counter j) yc).
Proof.
  intros [Hlt Hge]. induction r as [|r IH]; intros j yc trace fuel Hj Hf.
  - replace j with m by lia.
    destruct fuel; simpl; rewrite Hge, app_nil_r; reflexivity.
  - destruct fuel as [|fuel]; [lia|]. cbn [correction_loop].
    rewrite Hlt by lia. rewrite f_total. cbn [exec_bind of_option].
    rewrite <- counter_succ, IH by lia.
    rewrite Nat.iter_succ_r, <- app_assoc. reflexivity.
Qed.

(** The lines one step pushes, from the point [p]. *)
Definition step_block (h : R) (m : nat) (i : R) (p : R * R) : list string :=
  let '(cx, cy) := p in
  let slope1 := g cx cy in
  let yp := cy + h * slope1 in
  (nl ++ "Step " ++ js_toString (i + js_one) ++ ":")%string
    :: predictor_lines precision cx cy slope1 yp
    ++ corr_trace h cx cy slope1 m js_zero yp.

(** The lines [r] steps push, from counter value [i] and point [p]. *)
Fixpoint steps_trace (h : R) (m r : nat) (i : R) (p : R * R) : list string :=
  match r with
  | O => []
  | S r' => step_block h m i p ++ steps_trace h m r' (i + js_one) (heun_step g h m p)
  end.

Lemma step_loop_trips (n h c : R) (k m : nat) :
  trips n k -> trips c m ->
  forall r j p trace fuel, (j + r = k)%nat -> r <= fuel -> (m + r <= S fuel)%nat ->
  step_loop f precision fuel n h c (counter j) (fst p) (snd p) trace =
  Ok (Nat.iter r (heun_step g h m) p, trace ++ steps_trace h m r (counter j) p).
Proof.
  intros [Hlt Hge] Hc. induction r as [|r IH]; intros j [cx cy] trace fuel Hj Hf Hm.
  - replace j with k by lia.
    destruct fuel; simpl; rewrite Hge, app_nil_r; reflexivity.
  - destruct fuel as [|fuel]; [lia|]. cbn [step_loop fst snd].
    rewrite Hlt by lia. rewrite f_total. cbn [exec_bind of_option].
    rewrite <- counter_zero, (correction_loop_trips _ _ _ _ _ m Hc m 0) by lia.
    cbn [exec_bind]. rewrite <- counter_succ.
    change (cx + h) with (fst (heun_step g h m (cx, cy))).
    change (Nat.iter m _ (cy + h * g cx cy)) with (snd (heun_step g h m (cx, cy))).
    rewrite IH by lia. rewrite Nat.iter_succ_r.
    f_equal. f_equal. rewrite <- !app_assoc. reflexivity.
Qed.

Lemma try_body_trips (fuel : nat) (x0 y0 h xf c : R) (k m : nat) :
  trips (js_ceil ((xf - x0) / h)) k -> trips c m -> (k + m <= fuel)%nat ->
  try_body f precision fuel x0 y0 h xf c =
  Ok (header precision x0 y0 h xf c (js_ceil ((xf - x0) / h))
      ++ steps_trace h m k js_zero (x0, y0)
  ++ [final_line precision (fst (Nat.iter k (heun_step g h m) (x0, y0)))
        (snd (Nat.iter k (heun_step g h m) (x0, y0)))]).
Proof.
  intros Hn Hc Hf. unfold try_body.
  change x0 with (fst (x0, y0)) at 2. change y0 with (snd (x0, y0)) at 2.
  rewrite <- counter_zero, (step_loop_trips _ _ _ k m Hn Hc k 0) by lia.
  cbn [exec_bind]. destruct (Nat.iter k _ _). rewrite <- app_assoc. reflexivity.
Qed.

Lemma corr_trace_length (h cx cy slope1 : R) (r : nat) :
  forall j yc, length (corr_trace h cx cy slope1 r j yc) = (3 * r)%nat.
Proof. induction r as [|r IH]; intros; simpl; [reflexivity|]. rewrite IH. lia. Qed.

(** Line [3 k + 1] of the correction trace is the [f(...)] line of
    correction [k + 1]. *)
Lemma corr_trace_f_line (h cx cy slope1 : R) (r : nat) :
  forall k j yc, (k < r)%nat ->
  nth (3 * k + 1) (corr_trace h cx cy slope1 r j yc) EmptyString =
  ("    f(" ++ formatNumber precision (cx + h) ++ ", "
   ++ formatNumber precision (Nat.iter (S k) (corrector g h cx cy slope1) yc)
   ++ ") = " ++ formatNumber precision (g (cx + h) (Nat.iter k (corrector g h cx cy slope1) yc)))%string.
Proof.
  induction r as [|r IH]; intros k j yc Hk; [lia|].
  destruct k as [|k]; [reflexivity|].
  cbn [corr_trace correction_lines app]. replace (3 * S k + 1)%nat with (3 + (3 * k + 1))%nat by lia.
  cbn [Nat.add nth]. rewrite IH by lia. rewrite !iter_shift. reflexivity.
Qed.

Lemma steps_trace_length (h : R) (m r : nat) :
  forall i p, length (steps_trace h m r i p) = (r * (4 + 3 * m))%nat.
Proof.
  induction r as [|r IH]; intros i [cx cy]; [reflexivity|].
  simpl. rewrite length_app, IH, corr_trace_length. lia.
Qed.

Lemma heun_step_no_corrections (h : R) (p : R * R) :
  heun_step g h 0 p = euler_step g h p.
Proof. destruct p; reflexivity. Qed.

Lemma correction_loop_not_thrown (fuel : nat) (c h cx cy slope1 : R) :
  forall j yc trace, correction_loop f precision fuel c h cx cy slope1 j yc trace <> Thrown.
Proof.
  induction fuel as [|fuel IH]; intros j yc trace; cbn [correction_loop];
    destruct (j <? c); try discriminate.
  rewrite f_total. apply IH.
Qed.

(** When the step loop's condition never fails, every amount of fuel
    runs out. *)
Lemma step_loop_unbounded (n h c : R) :
  unbounded n ->
  forall fuel j cx cy trace, step_loop f precision fuel n h c (counter j) cx cy trace = OutOfFuel.
Proof.
  intros Hn. induction fuel as [|fuel IH]; intros j cx cy trace; cbn [step_loop];
    rewrite Hn; [reflexivity|].
  rewrite f_total. cbn [exec_bind of_option].
  destruct (correction_loop _ _ _ _ _ _ _ _ _ _ _) as [[yc tr]| |] eqn:E;
    cbn [exec_bind]; try reflexivity.
  - rewrite <- counter_succ. apply IH.
  - exfalso. exact (correction_loop_not_thrown _ _ _ _ _ _ _ _ _ E).
Qed.
End Total.

(** ** Any right-hand side *)

Lemma correction_loop_extends (fuel : nat) (c h cx cy slope1 : R) :
  forall j yc trace yc' trace',
  correction_loop f precision fuel c h cx cy slope1 j yc trace = Ok (yc', trace') ->
  exists body, trace' = trace ++ body.
Proof.
  induction fuel as [|fuel IH]; intros j yc trace yc' trace' E; cbn [correction_loop] in E;
    destruct (j <? c); try discriminate.
  - injection E as _ <-. exists []. symmetry. apply app_nil_r.
  - destruct (f (cx + h) yc); cbn [of_option exec_bind] in E; try discriminate.
    apply IH in E as [body ->]. eexists. symmetry. apply app_assoc.
  - injection E as _ <-. exists []. symmetry. apply app_nil_r.
Qed.

Lemma step_loop_extends (fuel : nat) (n h c : R) :
  forall i cx cy trace cx' cy' trace',
  step_loop f precision fuel n h c i cx cy trace = Ok (cx', cy', trace') ->
  exists body, trace' = trace ++ body.
Proof.
  induction fuel as [|fuel IH]; intros i cx cy trace cx' cy' trace' E; cbn [step_loop] in E;
    destruct (i <? n); try discriminate.
  - injection E as _ _ <-. exists []. symmetry. apply app_nil_r.
  - destruct (f cx cy); cbn [of_option exec_bind] in E; try discriminate.
    destruct (correction_loop _ _ _ _ _ _ _ _ _ _ _) as [[yc tr]| |] eqn:Ec;
      cbn [exec_bind] in E; try discriminate.
    apply correction_loop_extends in Ec as [b1 ->].
    apply IH in E as [b2 ->]. eexists. rewrite <- !app_assoc. reflexivity.
  - injection E as _ _ <-. exists []. symmetry. apply app_nil_r.
Qed.

Definition corr_shape (e : exec (R * list string)) : exec (R * nat) :=
  exec_map (fun '(y, t) => (y, length t)) e.

Definition step_shape (e : exec (R * R * list string)) : exec (R * R * nat) :=
  exec_map (fun '(x, y, t) => (x, y, length t)) e.

Lemma correction_loop_precision (p1 p2 fuel : nat) (c h cx cy slope1 : R) :
  forall j yc tr1 tr2, length tr1 = length tr2 ->
  corr_shape (correction_loop f p1 fuel c h cx cy slope1 j yc tr1) =
  corr_shape (correction_loop f p2 fuel c h cx cy slope1 j yc tr2).
Proof.
  induction fuel as [|fuel IH]; intros j yc tr1 tr2 L; cbn [correction_loop];
    destruct (j <? c); cbn; try congruence.
  destruct (f (cx + h) yc); [|reflexivity]. apply IH. rewrite !length_app, L. reflexivity.
Qed.

(** C8. The precision only changes the text. Run the step loop with two
    precisions from traces of equal length. It gives the same outcome
    (normal end, exception or fuel exhausted), the same final [x] and
    [y], and a trace of the same length. *)
Theorem step_loop_precision_independent (p1 p2 fuel : nat) (n h c : R) :
  forall i cx cy tr1 tr2, length tr1 = length tr2 ->
  step_shape (step_loop f p1 fuel n h c i cx cy tr1) =
  step_shape (step_loop f p2 fuel n h c i cx cy tr2).
Proof.
  induction fuel as [|fuel IH]; intros i cx cy tr1 tr2 L; cbn [step_loop];
    destruct (i <? n); cbn [step_shape exec_map exec_bind]; try congruence.
  destruct (f cx cy) as [slope1|]; [|reflexivity]. cbn [of_option exec_bind].
  match goal with
  | |- context [correction_loop f p1 ?fu ?c' ?h' ?x ?y ?s ?j ?yp ?t1] =>
    match goal with
    | |- context [correction_loop f p2 _ _ _ _ _ _ _ _ ?t2] =>
        pose proof (correction_loop_precision p1 p2 fu c' h' x y s j yp t1 t2) as Hs;
        destruct (correction_loop f p1 fu c' h' x y s j yp t1) as [[y1 u1]| |],
                 (correction_loop f p2 fu c' h' x y s j yp t2) as [[y2 u2]| |];
        cbn [corr_shape exec_map exec_bind] in Hs |- *
    end
  end;
    try (specialize (Hs ltac:(rewrite !length_app, L; reflexivity)); discriminate);
    try reflexivity.
  specialize (Hs ltac:(rewrite !length_app, L; reflexivity)).
  injection Hs as <- Lu. apply IH. exact Lu.
Qed.
End StepperProofs.

(** * The properties of the handler *)

Section Properties.
Context {R : Type} `{JSNumber R}.
Variable f : R -> R -> option R.
Variable precision : nat.
Local Open Scope js_scope.

Section TotalRhs.
Variable g : R -> R -> R.
Hypothesis f_total : forall x y, f x y = Some (g x y).

(** C1. Refinement of the recurrence. Take a right-hand side that
    always returns a number. Let the step loop run [k] times and the
    correction loop [m] times, with [k + m] units of fuel. Then
    [solveEulerModified] sets the solution to: the four header lines,
    then the step blocks of [k] steps of [heun_step] from [(x0, y0)],
    then the final line with the point [k] steps of [heun_step]
    reach. *)
Theorem solve_refines_heun (fuel : nat) (x0 y0 h xf c : R) (k m : nat) :
  trips (js_ceil ((xf - x0) / h)) k -> trips c m -> (k + m <= fuel)%nat ->
  solve f precision fuel x0 y0 h xf c =
  Some (header precision x0 y0 h xf c (js_ceil ((xf - x0) / h))
        ++ steps_trace precision g h m k js_zero (x0, y0)
    ++ [final_line precision (fst (Nat.iter k (heun_step g h m) (x0, y0)))
          (snd (Nat.iter k (heun_step g h m) (x0, y0)))]).
Proof.
  intros Hn Hc Hf. unfold solve.
  rewrite (try_body_trips f precision g f_total fuel x0 y0 h xf c k m Hn Hc Hf).
  reflexivity.
Qed.

(** C4. Non-termination. When the condition [i < n] of the step loop
    never fails ([n] is [+Infinity]) and the right-hand side never
    throws, the handler never finishes: every amount of fuel runs
    out. *)
Theorem solve_unbounded_diverges (fuel : nat) (x0 y0 h xf c : R) :
  unbounded (js_ceil ((xf - x0) / h)) -> solve f precision fuel x0 y0 h xf c = None.
Proof.
  intros Hn. unfold solve, try_body.
  rewrite <- counter_zero, (step_loop_unbounded f precision g f_total _ _ _ Hn). reflexivity.
Qed.

Lemma solve_shape_euler (fuel : nat) (x0 y0 h xf c : R) (k : nat) :
  trips (js_ceil ((xf - x0) / h)) k -> trips c 0 -> (k <= fuel)%nat ->
  solve f precision fuel x0 y0 h xf c =
  Some (header precision x0 y0 h xf c (js_ceil ((xf - x0) / h))
        ++ steps_trace precision g h 0 k js_zero (x0, y0)
        ++ [final_line precision (fst (Nat.iter k (euler_step g h) (x0, y0)))
              (snd (Nat.iter k (euler_step g h) (x0, y0)))]).
Proof.
  intros Hn Hc Hf. unfold solve.
  rewrite (try_body_trips f precision g f_total fuel x0 y0 h xf c k 0 Hn Hc) by lia.
  rewrite (iter_ext _ _ k _ (heun_step_no_corrections g h)). reflexivity.
Qed.

(** The corrector reuses [slope1]. When [g] does not depend on
    [y], the correction loop returns, after any number [S m >= 1] of
    iterations, the value of the first correction. *)
Theorem correction_loop_y_independent (fuel : nat) (c h cx cy slope1 yp : R) (m : nat)
    (trace : list string) :
  (forall x y1 y2, g x y1 = g x y2) -> trips c (S m) -> (S m <= fuel)%nat ->
  exists trace', correction_loop f precision fuel c h cx cy slope1 js_zero yp trace =
    Ok (corrector g h cx cy slope1 yp, trace').
Proof.
  intros Hind Hc Hf. rewrite <- counter_zero.
  rewrite (correction_loop_trips f precision g f_total c h cx cy slope1 (S m) Hc (S m) 0) by lia.
  rewrite (iter_const_after_one (corrector g h cx cy slope1)); [eauto|].
  intros y z. unfold corrector. rewrite (Hind _ y z). reflexivity.
Qed.

(** C9. The trace has [5 + k * (4 + 3 * m)] lines: four header lines,
    four lines per step plus three per correction, and the final line. *)
Theorem solve_trace_length (fuel : nat) (x0 y0 h xf c : R) (k m : nat) :
  trips (js_ceil ((xf - x0) / h)) k -> trips c m -> (k + m <= fuel)%nat ->
  exists lines, solve f precision fuel x0 y0 h xf c = Some lines /\
  length lines = (5 + k * (4 + 3 * m))%nat.
Proof.
  intros Hn Hc Hf. unfold solve.
  rewrite (try_body_trips f precision g f_total fuel x0 y0 h xf c k m Hn Hc Hf).
  eexists. split; [reflexivity|].
  rewrite !length_app, steps_trace_length. cbn. lia.
Qed.

(** C13. The correction lines misreport the point of evaluation. For a
    right-hand side that always returns a number and a correction loop
    of [m] trips, the [f(...)] line of correction [k + 1] (line 94)
    prints [f(x + h, y_(k+1)) = g(x + h, y_k)]: the argument shown is the
    value line 91 has just computed, while the slope was evaluated at
    the previous value [y_k] (the predicted [y] when [k = 0]). *)
Theorem correction_line_misreports (fuel : nat) (c h cx cy slope1 yc : R) (m k : nat)
    (trace : list string) :
  trips c m -> (m <= fuel)%nat -> (k < m)%nat ->
  exists lines, correction_loop f precision fuel c h cx cy slope1 js_zero yc trace =
    Ok (Nat.iter m (corrector g h cx cy slope1) yc, trace ++ lines) /\
    nth (3 * k + 1) lines EmptyString =
    ("    f(" ++ formatNumber precision (cx + h) ++ ", "
     ++ formatNumber precision (Nat.iter (S k) (corrector g h cx cy slope1) yc)
     ++ ") = " ++ formatNumber precision (g (cx + h) (Nat.iter k (corrector g h cx cy slope1) yc)))%string.
Proof.
  intros Hc Hf Hk. rewrite <- counter_zero.
  rewrite (correction_loop_trips f precision g f_total c h cx cy slope1 m Hc m 0 yc trace fuel) by lia.
  eexists. split; [reflexivity | apply corr_trace_f_line; exact Hk].
Qed.
End TotalRhs.

(** The shape of every solution: the error line, or header, body and
    final line. *)
Lemma solve_shape (fuel : nat) (x0 y0 h xf c : R) (lines : list string) :
  solve f precision fuel x0 y0 h xf c = Some lines ->
  lines = [error_message] \/
  exists body cx cy, lines = header precision x0 y0 h xf c (js_ceil ((xf - x0) / h))
                           ++ body ++ [final_line precision cx cy].
Proof.
  unfold solve, try_body.
  destruct (step_loop _ _ _ _ _ _ _ _ _ _) as [[[cx cy] tr]| |] eqn:E;
  cbn [exec_bind]; intros Hs; try discriminate; injection Hs as <-; [right | left; reflexivity].
  apply step_loop_extends in E as [body ->]. exists body, cx, cy. rewrite app_assoc. reflexivity.
Qed.

Lemma solve_no_steps (fuel : nat) (x0 y0 h xf c : R) :
  (js_zero <? js_ceil ((xf - x0) / h)) = false ->
  solve f precision fuel x0 y0 h xf c =
  Some (header precision x0 y0 h xf c (js_ceil ((xf - x0) / h)) ++ [final_line precision x0 y0]).
Proof. intros Hn. unfold solve, try_body. destruct fuel; cbn [step_loop]; rewrite Hn; reflexivity. Qed.

(** C2. All or nothing. Whatever the inputs and the right-hand side,
    the solution shown is either the single error line, or the four
    header lines, then the step lines, then one final line. No partial
    trace is ever shown. *)
Theorem solve_all_or_nothing (fuel : nat) (x0 y0 h xf c : R) (lines : list string) :
  solve f precision fuel x0 y0 h xf c = Some lines ->
  lines = [error_message] \/
  exists body cx cy, lines = header precision x0 y0 h xf c (js_ceil ((xf - x0) / h))
                           ++ body ++ [final_line precision cx cy].
Proof. apply solve_shape. Qed.

(** C3. Zero steps. When the first test [0 < n] fails ([xf <= x0] with
    [h > 0], or [n] is [NaN]), the trace is the header and the final
    line [y(x0) = y0]. The right-hand side is never called, so a
    malformed equation goes unreported. *)
Theorem solve_zero_steps (fuel : nat) (x0 y0 h xf c : R) :
  (js_zero <? js_ceil ((xf - x0) / h)) = false ->
  solve f precision fuel x0 y0 h xf c =
  Some (header precision x0 y0 h xf c (js_ceil ((xf - x0) / h)) ++ [final_line precision x0 y0]).
Proof. apply solve_no_steps. Qed.

(** C6. An evaluation error at the first point replaces the whole trace
    by the error line, when the loop runs at least once. *)
Theorem solve_first_evaluation_fails (fuel : nat) (x0 y0 h xf c : R) :
  (js_zero <? js_ceil ((xf - x0) / h)) = true -> f x0 y0 = None ->
  solve f precision (S fuel) x0 y0 h xf c = Some [error_message].
Proof.
  intros Hn Hf. unfold solve, try_body. cbn [step_loop]. rewrite Hn, Hf. reflexivity.
Qed.
End Properties.

(** ** Fuel *)

Section Fuel.
Context {R : Type} `{JSNumber R}.
Variable f : R -> R -> option R.
Variable precision : nat.
Local Open Scope js_scope.

Lemma correction_loop_fuel (c h cx cy slope1 : R) (m : nat) :
  trips c m ->
  forall r j yc trace fuel, (j + r = m)%nat -> (r <= fuel)%nat ->
  correction_loop f precision fuel c h cx cy slope1 (counter j) yc trace <> OutOfFuel.
Proof.
  intros [Hlt Hge]. induction r as [|r IH]; intros j yc trace fuel Hj Hf.
  - replace j with m by lia. destruct fuel; cbn [correction_loop]; rewrite Hge; discriminate.
  - destruct fuel as [|fuel]; [lia|]. cbn [correction_loop]. rewrite Hlt by lia.
    destruct (f (cx + h) yc); cbn [of_option exec_bind]; [|discriminate].
    rewrite <- counter_succ. apply IH; lia.
Qed.

Lemma step_loop_fuel (n h c : R) (k m : nat) :
  trips n k -> trips c m ->
  forall r j cx cy trace fuel, (j + r = k)%nat -> (r <= fuel)%nat -> (m + r <= S fuel)%nat ->
  step_loop f precision fuel n h c (counter j) cx cy trace <> OutOfFuel.
Proof.
  intros [Hlt Hge] Hc. induction r as [|r IH]; intros j cx cy trace fuel Hj Hf Hm.
  - replace j with k by lia. destruct fuel; cbn [step_loop]; rewrite Hge; discriminate.
  - destruct fuel as [|fuel]; [lia|]. cbn [step_loop]. rewrite Hlt by lia.
    destruct (f cx cy); cbn [of_option exec_bind]; [|discriminate].
    rewrite <- counter_zero.
    destruct (correction_loop _ _ _ _ _ _ _ _ _ _ _) as [[yc tr]| |] eqn:E; cbn [exec_bind].
    + rewrite <- counter_succ. apply IH; lia.
    + discriminate.
    + exfalso. refine (correction_loop_fuel c h cx cy _ m Hc m 0 _ _ (S fuel) _ _ E); lia.
Qed.

(** C21. Termination. Whatever the right-hand side does (it may throw,
    which ends the handler early), when the bound [n] of the step loop and
    the correction count [c] make the loops run [k] and [m] times, [k + m]
    units of fuel, and any more, let Solve show a trace or the error
    line. This holds on every instance of the number interface, binary64
    included: there a bound of [+Infinity], or above [2^53] where [i++]
    stops changing [i], has no trip count. *)
Theorem solve_fuel (fuel : nat) (x0 y0 h xf c : R) (k m : nat) :
  trips (js_ceil ((xf - x0) / h)) k -> trips c m -> (k + m <= fuel)%nat ->
  solve f precision fuel x0 y0 h xf c <> None.
Proof.
  intros Hn Hc Hf. unfold solve, try_body. rewrite <- counter_zero.
  destruct (step_loop _ _ _ _ _ _ _ _ _ _) as [[[cx cy] tr]| |] eqn:E; cbn [exec_bind];
    try discriminate.
  exfalso. exact (step_loop_fuel _ _ _ k m Hn Hc k 0 x0 y0 _ fuel ltac:(lia) ltac:(lia) ltac:(lia) E).
Qed.
End Fuel.

(** ** Concrete runs on exact numbers *)

(** A deterministic stand-in for mathjs that knows one expression. *)
Definition stub_evaluate (expr : string) (x y : xnum) : option xnum :=
  if String.eqb expr "x + y" then Some (x + y)%js
  else if String.eqb expr "x" then Some x
  else None.

(** The right-hand side of the default equation [y' = x + y]. *)
Definition f_default : xnum -> xnum -> option xnum :=
  Evaluator.f stub_evaluate "y' = x + y".

Lemma f_default_total (x y : xnum) : f_default x y = Some (x + y)%js.
Proof. reflexivity. Qed.

Lemma solve_refines_heun_witness :
  exists out, solve f_default 4 10 (Fin 0) (Fin 0) (Fin (1 # 10)) (Fin (3 # 10)) (Fin 1) = Some out.
Proof.
  eexists.
  apply (solve_refines_heun f_default 4 xadd f_default_total 10 _ _ _ _ _ 3 1);
    [apply trips_b_spec; vm_compute; reflexivity
    | apply trips_b_spec; vm_compute; reflexivity
    | lia].
Defined.

(** A malformed equation: every evaluation fails. *)
Definition f_malformed : xnum -> xnum -> option xnum :=
  Evaluator.f stub_evaluate "y' = x +* y".

(** A right-hand side that does not depend on [y]. *)
Definition f_x_only : xnum -> xnum -> option xnum :=
  Evaluator.f stub_evaluate "y' = x".

Lemma f_x_only_total (x y : xnum) : f_x_only x y = Some x.
Proof. reflexivity. Qed.

Lemma solve_all_or_nothing_witness :
  exists lines, solve f_malformed 4 10 (Fin 0) (Fin 0) (Fin (1 # 10)) (Fin 1) (Fin 1) = Some lines /\
  (lines = [error_message] \/
   exists body cx cy, lines = header 4 (Fin 0) (Fin 0) (Fin (1 # 10)) (Fin 1) (Fin 1)
                                (js_ceil ((Fin 1 - Fin 0) / Fin (1 # 10))%js)
                              ++ body ++ [final_line 4 cx cy]).
Proof.
  eexists. split; [vm_compute; reflexivity|].
  apply (solve_all_or_nothing f_malformed 4 10). vm_compute. reflexivity.
Defined.

Lemma solve_zero_steps_witness :
  solve f_malformed 4 10 (Fin 0) (Fin 0) (Fin (1 # 10)) (Fin 0) (Fin 1) =
  Some (header 4 (Fin 0) (Fin 0) (Fin (1 # 10)) (Fin 0) (Fin 1)
          (js_ceil ((Fin 0 - Fin 0) / Fin (1 # 10))%js) ++ [final_line 4 (Fin 0) (Fin 0)]).
Proof. apply solve_zero_steps. vm_compute. reflexivity. Defined.

Lemma solve_unbounded_diverges_witness :
  solve f_default 4 25 (Fin 0) (Fin 0) (Fin 0) (Fin 1) (Fin 1) = None.
Proof.
  apply (solve_unbounded_diverges f_default 4 xadd f_default_total).
  rewrite (step_count_exact_zero 0 1) by reflexivity. apply unbounded_PInf.
Defined.

Lemma solve_first_evaluation_fails_witness :
  solve f_malformed 4 10 (Fin 0) (Fin 0) (Fin (1 # 10)) (Fin 1) (Fin 1) = Some [error_message].
Proof. apply solve_first_evaluation_fails; vm_compute; reflexivity. Defined.

Lemma correction_loop_y_independent_witness :
  exists trace', correction_loop f_x_only 4 5 (Fin 3) (Fin (1 # 2)) (Fin 1) (Fin 2) (Fin 1)
                   js_zero (Fin (5 # 2)) [] =
    Ok (corrector (fun x _ => x) (Fin (1 # 2)) (Fin 1) (Fin 2) (Fin 1) (Fin (5 # 2)), trace').
Proof.
  apply (correction_loop_y_independent f_x_only 4 (fun x _ => x) f_x_only_total 5 _ _ _ _ _ _ 2);
    [reflexivity | apply trips_b_spec; vm_compute; reflexivity | lia].
Defined.

Lemma step_loop_precision_independent_witness :
  step_shape (step_loop f_default 2 10 (Fin 3) (Fin (1 # 10)) (Fin 2) js_zero (Fin 0) (Fin 0) []) =
  step_shape (step_loop f_default 6 10 (Fin 3) (Fin (1 # 10)) (Fin 2) js_zero (Fin 0) (Fin 0) []).
Proof. apply step_loop_precision_independent. reflexivity. Defined.

Lemma solve_trace_length_witness :
  exists lines, solve f_default 4 10 (Fin 0) (Fin 0) (Fin (1 # 10)) (Fin (3 # 10)) (Fin 2) = Some lines /\
    length lines = (5 + 3 * (4 + 3 * 2))%nat.
Proof.
  apply (solve_trace_length f_default 4 xadd f_default_total);
    [apply trips_b_spec; vm_compute; reflexivity
    | apply trips_b_spec; vm_compute; reflexivity
    | lia].
Defined.

(** On [y' = x + y] from [(0, 0)] with [h = 0.1] and one correction. *)
Lemma correction_line_misreports_witness :
  exists lines, correction_loop f_default 4 5 (Fin 1) (Fin (1 # 10)) (Fin 0) (Fin 0) (Fin 0) js_zero (Fin 0) [] =
    Ok (Nat.iter 1 (corrector xadd (Fin (1 # 10)) (Fin 0) (Fin 0) (Fin 0)) (Fin 0), [] ++ lines) /\
    nth (3 * 0 + 1) lines EmptyString =
    ("    f(" ++ formatNumber 4 (Fin 0 + Fin (1 # 10))%js ++ ", "
     ++ formatNumber 4 (Nat.iter 1 (corrector xadd (Fin (1 # 10)) (Fin 0) (Fin 0) (Fin 0)) (Fin 0))
     ++ ") = " ++ formatNumber 4 (xadd (Fin 0 + Fin (1 # 10))%js
                                   (Nat.iter 0 (corrector xadd (Fin (1 # 10)) (Fin 0) (Fin 0) (Fin 0)) (Fin 0))))%string.
Proof.
  apply (correction_line_misreports f_default 4 xadd f_default_total);
    [apply trips_b_spec; vm_compute; reflexivity | lia | lia].
Defined.

Lemma solve_fuel_witness :
  trips (js_ceil ((Fin 1 - Fin 0) / Fin (1 # 10))%js) 10 /\ trips (Fin 2) 2 /\
  solve f_malformed 4 12 (Fin 0) (Fin 0) (Fin (1 # 10)) (Fin 1) (Fin 2) <> None.
Proof.
  assert (Hn : trips (js_ceil ((Fin 1 - Fin 0) / Fin (1 # 10))%js) 10)
    by (apply trips_b_spec; vm_compute; reflexivity).
  assert (Hc : trips (Fin 2) 2) by (apply trips_b_spec; vm_compute; reflexivity).
  split; [exact Hn | split; [exact Hc|]].
  exact (solve_fuel f_malformed 4 12 _ _ _ _ _ 10 2 Hn Hc ltac:(lia)).
Defined.

(** ** Theorems on exact numbers *)

Section ExactModel.
Variable f : xnum -> xnum -> option xnum.
Variable precision : nat.
Variable g : xnum -> xnum -> xnum.
Hypothesis f_total : forall x y, f x y = Some (g x y).

(** C5. [h = 0] is not rejected. With [h = 0] and [x0 < xf], [n] is
    [Math.ceil(+Infinity) = +Infinity], and for a right-hand side that
    never throws, the handler runs forever. The specification requires
    [h = 0] to be rejected before the loop. *)
Theorem exact_h_zero_diverges (fuel : nat) (x0 xf : Q) (y0 c : xnum) :
  (x0 < xf)%Q -> solve f precision fuel (Fin x0) y0 (Fin 0) (Fin xf) c = None.
Proof.
  intros Hlt. unfold solve, try_body. rewrite (step_count_exact_zero x0 xf Hlt).
  rewrite <- counter_zero, (step_loop_unbounded f precision g f_total _ _ _ unbounded_PInf).
  reflexivity.
Qed.

End ExactModel.

Lemma exact_h_zero_diverges_witness :
  solve f_default 4 50 (Fin 0) (Fin 0) (Fin 0) (Fin 1) (Fin 1) = None.
Proof. apply (exact_h_zero_diverges f_default 4 xadd f_default_total). reflexivity. Defined.
