(* ===== verification/Calculator.v ===== *)
(** * The calculator screen: the component [Calculator] of [index.tsx]

    The component keeps seven pieces of React state (lines 16-22): the
    equation and the five numeric fields as the text the user typed, and
    [solution], the array of trace lines. Its form (lines 128-248) binds
    each [TextInput] to a setter. The Solve button calls
    [solveEulerModified] (line 246), which parses the fields (lines
    55-59), runs [Stepper.solve] with the right-hand side [Evaluator.f]
    on the equation text, and stores the lines with [setSolution]. The
    results panel (lines 256-281) shows nothing while [solution] is
    empty. Otherwise it shows each line with the styles chosen by its
    prefix.

    [calculator_step] is the screen's event relation. [solveEulerModified]
    is the handler: [None] when its loops have not finished within the
    fuel, which the running app shows as a frozen screen. *)

From Stdlib Require Import String Ascii List PeanoNat Lia ZArith QArith Qround Lqa.
From S2P Require Import Prelude Number Format Exact Evaluator Parse Stepper.
Import ListNotations.

Record calculator : Type := mk_calculator {
  equation : string;
  initialX : string;
  initialY : string;
  stepSize : string;
  finalX : string;
  corrections : string;
  solution : list string
}.

(** Lines 16-22. *)
Definition initial_calculator : calculator :=
  {| equation := "y' = x + y"; initialX := "0"; initialY := "0"; stepSize := "0.1";
     finalX := "1"; corrections := "1"; solution := [] |}%string.

(** The text fields of the form. *)
Inductive field : Type := Equation | InitialX | InitialY | StepSize | FinalX | Corrections.

(** [onChangeText] of the six inputs (lines 141, 161, 180, 201, 220 and
    240): [setEquation], [setInitialX], ... *)
Definition set_field (fl : field) (v : string) (s : calculator) : calculator :=
  match fl with
  | Equation => {| equation := v; initialX := initialX s; initialY := initialY s;
                   stepSize := stepSize s; finalX := finalX s;
                   corrections := corrections s; solution := solution s |}
  | InitialX => {| equation := equation s; initialX := v; initialY := initialY s;
                   stepSize := stepSize s; finalX := finalX s;
                   corrections := corrections s; solution := solution s |}
  | InitialY => {| equation := equation s; initialX := initialX s; initialY := v;
                   stepSize := stepSize s; finalX := finalX s;
                   corrections := corrections s; solution := solution s |}
  | StepSize => {| equation := equation s; initialX := initialX s; initialY := initialY s;
                   stepSize := v; finalX := finalX s;
                   corrections := corrections s; solution := solution s |}
  | FinalX => {| equation := equation s; initialX := initialX s; initialY := initialY s;
                 stepSize := stepSize s; finalX := v;
                 corrections := corrections s; solution := solution s |}
  | Corrections => {| equation := equation s; initialX := initialX s;
                      initialY := initialY s; stepSize := stepSize s; finalX := finalX s;
                      corrections := v; solution := solution s |}
  end.

Definition setSolution (lines : list string) (s : calculator) : calculator :=
  {| equation := equation s; initialX := initialX s; initialY := initialY s;
     stepSize := stepSize s; finalX := finalX s; corrections := corrections s;
     solution := lines |}.

(** The styles of lines 271-273. *)
Inductive line_style : Type := StepDivider | CorrectionHeader | CorrectionDetail.

Definition styles_of (step : string) : list line_style :=
  (if prefix nl step then [StepDivider] else [])
  ++ (if prefix "  Correction" step then [CorrectionHeader] else [])
  ++ (if prefix "    " step then [CorrectionDetail] else []).

(** Lines 256-281: nothing while the solution is empty, otherwise every
    line with its styles. *)
Definition results_view (s : calculator) : option (list (string * list line_style)) :=
  match solution s with
  | [] => None
  | lines => Some (map (fun l => (l, styles_of l)) lines)
  end.

Section Handler.
Context {R : Type} `{JSNumber R}.
Variable evaluate : string -> R -> R -> option R.
Variable precision : nat.

(** Lines 53-108: parse the fields, solve, [setSolution]. *)
Definition solveEulerModified (fuel : nat) (s : calculator) : option calculator :=
  let x0 := parseFloat (initialX s) in
  let y0 := parseFloat (initialY s) in
  let h := parseFloat (stepSize s) in
  let xf := parseFloat (finalX s) in
  let c := parseInt (corrections s) in
  match solve (Evaluator.f evaluate (equation s)) precision fuel x0 y0 h xf c with
  | Some lines => Some (setSolution lines s)
  | None => None
  end.

(** The events of the screen. *)
Inductive calculator_step : calculator -> calculator -> Prop :=
| step_edit (fl : field) (v : string) (s : calculator) :
    calculator_step s (set_field fl v s)
| step_solve (fuel : nat) (s s' : calculator) :
    solveEulerModified fuel s = Some s' -> calculator_step s s'.

Inductive calculator_reachable : calculator -> Prop :=
| calc_init : calculator_reachable initial_calculator
| calc_step (s s' : calculator) :
    calculator_reachable s -> calculator_step s s' -> calculator_reachable s'.

(** What the results panel can hold. *)
Definition solution_ok (s : calculator) : Prop :=
  solution s = [] \/ solution s = [error_message] \/
  exists x0 y0 h xf c body cx cy,
    solution s = header precision x0 y0 h xf c (js_ceil ((xf - x0) / h)%js)
                 ++ body ++ [final_line precision cx cy].

Lemma solution_set_field (fl : field) (v : string) (s : calculator) :
  solution (set_field fl v s) = solution s.
Proof. destruct fl; reflexivity. Qed.

Lemma solveEulerModified_Some (fuel : nat) (s s' : calculator) :
  solveEulerModified fuel s = Some s' ->
  exists lines, solve (Evaluator.f evaluate (equation s)) precision fuel
                  (parseFloat (initialX s)) (parseFloat (initialY s)) (parseFloat (stepSize s))
                  (parseFloat (finalX s)) (parseInt (corrections s)) = Some lines /\
                s' = setSolution lines s.
Proof.
  unfold solveEulerModified. destruct (solve _ _ _ _ _ _ _ _); intros E; [|discriminate].
  injection E as <-. eauto.
Qed.

(** What Solve stores is an error line or a complete trace. *)
Lemma solveEulerModified_ok (fuel : nat) (s s' : calculator) :
  solveEulerModified fuel s = Some s' -> solution_ok s'.
Proof.
  intros E. apply solveEulerModified_Some in E as [lines [E ->]].
  apply solve_shape in E as [-> | (body & cx & cy & ->)]; unfold solution_ok; cbn.
  - right; left; reflexivity.
  - right; right. do 8 eexists. reflexivity.
Qed.

(** C14. The results panel never shows a partial trace. Every state the
    calculator screen can reach, by editing the fields and pressing Solve
    in any order, holds an empty solution, the error line, or a complete
    trace (header, body, final line). *)
Theorem calculator_solution_ok (s : calculator) :
  calculator_reachable s -> solution_ok s.
Proof.
  induction 1 as [|s s' _ IH Hstep]; [left; reflexivity|].
  destruct Hstep as [fl v s0|fuel s0 s1 E].
  - unfold solution_ok in *. rewrite solution_set_field. exact IH.
  - exact (solveEulerModified_ok fuel s0 s1 E).
Qed.

(** C19. Solve does not read the panel's previous contents. Pressing
    Solve gives the same state whatever [solution] held before, so a
    second press on unchanged fields shows the same trace again. *)
Theorem solveEulerModified_fresh (fuel : nat) (lines : list string) (s : calculator) :
  solveEulerModified fuel (setSolution lines s) = solveEulerModified fuel s.
Proof.
  unfold solveEulerModified. cbn [setSolution equation initialX initialY stepSize finalX corrections].
  destruct (solve _ _ _ _ _ _ _ _); reflexivity.
Qed.
End Handler.

Section JsPrecision.
Context {R : Type} `{JSNumber R}.
Variable evaluate : string -> R -> R -> option R.

(** The handler for a precision read as a JavaScript number [p]: when
    [p] is outside [toFixed]'s range, the first push of the header throws
    a [RangeError] in [formatNumber(x0)], and the [catch] stores the error
    line. *)
Definition solveEulerModified_js (p : Z) (fuel : nat) (s : calculator) : option calculator :=
  if toFixed_digits_ok p then solveEulerModified evaluate (Z.to_nat p) fuel s
  else Some (setSolution [error_message] s).

Lemma solveEulerModified_js_ok (p : Z) (fuel : nat) (s s' : calculator) :
  solveEulerModified_js p fuel s = Some s' -> solution_ok (Z.to_nat p) s'.
Proof.
  unfold solveEulerModified_js. destruct (toFixed_digits_ok p).
  - apply (solveEulerModified_ok evaluate).
  - intros E. injection E as <-. right; left. reflexivity.
Qed.

End JsPrecision.

Lemma calculator_solution_ok_witness :
  exists s, calculator_reachable stub_evaluate 4 s /\ solution_ok 4 s /\ solution s <> [].
Proof.
  eexists. split; [|split].
  - eapply calc_step; [apply calc_init|].
    eapply (step_solve stub_evaluate 4 20). vm_compute. reflexivity.
  - apply (calculator_solution_ok stub_evaluate 4).
    eapply calc_step; [apply calc_init|].
    eapply (step_solve stub_evaluate 4 20). vm_compute. reflexivity.
  - vm_compute. discriminate.
Defined.

(** ** Input validation on exact numbers *)

Section Validation.
Variable evaluate : string -> xnum -> xnum -> option xnum.
Variable precision : nat.

(** C15. A step size with no numeric prefix is not rejected. When
    [stepSize] has no numeric prefix ([parseFloat] gives [NaN]), Solve
    shows the header with [h = NaN] and [n = NaN] and the final line
    [y(x0) = y0]. No error is shown, whatever the other fields and the
    equation hold. The specification requires an InvalidInputFailure. *)
Theorem non_numeric_step_size_accepted (fuel : nat) (s : calculator) :
  parse_float_literal (trim_start (stepSize s)) = None ->
  let x0 := @parseFloat xnum _ (initialX s) in
  let y0 := @parseFloat xnum _ (initialY s) in
  let xf := @parseFloat xnum _ (finalX s) in
  let c := @parseInt xnum _ (corrections s) in
  solveEulerModified evaluate precision fuel s =
  Some (setSolution (header precision x0 y0 NaN xf c NaN ++ [final_line precision x0 y0]) s).
Proof.
  intros E x0 y0 xf c. unfold solveEulerModified.
  assert (Hh : @parseFloat xnum _ (stepSize s) = NaN) by (unfold parseFloat; rewrite E; reflexivity).
  rewrite Hh.
  assert (Hn : forall a, js_ceil (a / NaN)%js = NaN) by (intros []; reflexivity).
  rewrite solve_no_steps; rewrite Hn; reflexivity.
Qed.

(** C16. A non-positive correction count is not rejected. When
    [corrections] parses to [z <= 0] (["-2"], ["0"], ["-0x5"]), the
    correction loop runs zero times and Solve reports Euler's method. The
    header still prints the count as typed. The specification requires a
    negative count to be rejected. *)
Theorem nonpositive_corrections_euler (fuel k : nat) (g : xnum -> xnum -> xnum)
    (s : calculator) (z : Z) :
  (forall x y, Evaluator.f evaluate (equation s) x y = Some (g x y)) ->
  parse_int (corrections s) = Some z -> (z <= 0)%Z ->
  let x0 := @parseFloat xnum _ (initialX s) in
  let y0 := @parseFloat xnum _ (initialY s) in
  let h := @parseFloat xnum _ (stepSize s) in
  let xf := @parseFloat xnum _ (finalX s) in
  trips (js_ceil ((xf - x0) / h)%js) k -> (k <= fuel)%nat ->
  exists body, solveEulerModified evaluate precision fuel s =
    Some (setSolution (header precision x0 y0 h xf (@parseInt xnum _ (corrections s))
                         (js_ceil ((xf - x0) / h)%js) ++ body
                       ++ [final_line precision (fst (Nat.iter k (euler_step g h) (x0, y0)))
                             (snd (Nat.iter k (euler_step g h) (x0, y0)))]) s).
Proof.
  intros Hf Ez Hz x0 y0 h xf Hn Hk. unfold solveEulerModified.
  assert (Hc : trips (@parseInt xnum _ (corrections s)) 0).
  { unfold parseInt. rewrite Ez. cbn [js_of_Q exact_number].
    rewrite Qred_inject_Z. replace 0%nat with (Z.to_nat z) by lia. apply trips_exact_int. }
  rewrite (solve_shape_euler _ _ g Hf _ _ _ _ _ _ k Hn Hc Hk).
  eexists. reflexivity.
Qed.

End Validation.

Lemma non_numeric_step_size_accepted_witness :
  exists s', solveEulerModified stub_evaluate 4 20 (set_field StepSize "abc" initial_calculator) = Some s'.
Proof.
  eexists. apply (non_numeric_step_size_accepted stub_evaluate 4 20). vm_compute. reflexivity.
Defined.

Lemma nonpositive_corrections_euler_witness :
  exists body, solveEulerModified stub_evaluate 4 20 (set_field Corrections "-2" initial_calculator) =
    Some (setSolution (header 4 (Fin 0) (Fin 0) (Fin (1 # 10)) (Fin 1) (Fin (-2))
                         (js_ceil ((Fin 1 - Fin 0) / Fin (1 # 10))%js) ++ body
                       ++ [final_line 4 (fst (Nat.iter 10 (euler_step xadd (Fin (1 # 10))) (Fin 0, Fin 0)))
                             (snd (Nat.iter 10 (euler_step xadd (Fin (1 # 10))) (Fin 0, Fin 0)))])
            (set_field Corrections "-2" initial_calculator)).
Proof.
  apply (nonpositive_corrections_euler stub_evaluate 4 20 10 xadd
           (set_field Corrections "-2" initial_calculator) (-2));
    [intros x y; reflexivity | reflexivity | lia
    | apply trips_b_spec; vm_compute; reflexivity | lia].
Defined.

(** ** How the results panel styles a step *)

Lemma styles_of_correction_lines (precision : nat) {R : Type} `{JSNumber R} (j cx h y s2 : R) :
  map styles_of (correction_lines precision j cx h y s2) =
  [[CorrectionHeader]; [CorrectionDetail]; [CorrectionDetail]].
Proof. reflexivity. Qed.

Lemma styles_of_corr_trace (precision : nat) {R : Type} `{JSNumber R} (g : R -> R -> R)
    (h cx cy slope1 : R) (r : nat) :
  forall j yc, map styles_of (corr_trace precision g h cx cy slope1 r j yc) =
  concat (repeat [[CorrectionHeader]; [CorrectionDetail]; [CorrectionDetail]] r).
Proof.
  induction r as [|r IH]; intros j yc; [reflexivity|].
  cbn [corr_trace]. rewrite map_app, styles_of_correction_lines, IH. reflexivity.
Qed.

(** Lines 271-273 style every line of a step by its kind. The
    divider [\nStep i:] gets [stepDivider]. The [Predictor:] label gets no
    style. Each [f(...)] line and each value line gets [correctionDetail].
    Each [Correction j:] label gets [correctionHeader]. *)
Theorem step_block_styles (precision : nat) {R : Type} `{JSNumber R} (g : R -> R -> R)
    (h : R) (m : nat) (i : R) (p : R * R) :
  map styles_of (step_block precision g h m i p) =
  [StepDivider] :: [] :: [CorrectionDetail] :: [CorrectionDetail]
    :: concat (repeat [[CorrectionHeader]; [CorrectionDetail]; [CorrectionDetail]] m).
Proof.
  destruct p as [cx cy]. cbn [step_block]. rewrite map_cons, map_app.
  rewrite styles_of_corr_trace. reflexivity.
Qed.
