(* ===== verification/Settings.v ===== *)
(** * The settings context and the settings screen

    [src/contexts/SettingsContext.tsx] keeps three pieces of React state:
    [darkMode] (initially [true]), [notifications] ([false]) and
    [precision] ([4]). It exposes them with their setters. [useSettings]
    throws when no provider is above the caller.
    [src/app/(tabs)/settings.tsx] is the only code that changes them:
    - the Switch sets [darkMode] to the value it reports (line 53);
    - "-" sets [precision] to [Math.max(0, precision - 1)] (line 70);
    - "+" sets [precision] to [Math.min(8, precision + 1)] (line 82).
    Nothing calls [setNotifications]. [precision] is a JavaScript number,
    here a [Z], and the clamps are [Z.max] and [Z.min]. The calculator
    reads it in [formatNumber] (line 51 of [index.tsx]), where [toFixed]
    throws a [RangeError] outside [0..100].

    The screen's event handlers form a step relation [settings_step]. Its
    reachable states, from the provider's initial state, all have
    [0 <= precision <= 8], and every precision in that range is
    reachable. *)

From Stdlib Require Import ZArith Lia.
From S2P Require Import Prelude.
Local Open Scope Z_scope.

Record settings : Type := mk_settings {
  darkMode : bool;
  notifications : bool;
  precision : Z
}.

(** Lines 15-17 of [SettingsContext.tsx]. *)
Definition initial_settings : settings :=
  {| darkMode := true; notifications := false; precision := 4 |}.

(** The setters of the context ([useState] setters replace one field). *)
Definition setDarkMode (v : bool) (s : settings) : settings :=
  {| darkMode := v; notifications := notifications s; precision := precision s |}.

Definition setNotifications (v : bool) (s : settings) : settings :=
  {| darkMode := darkMode s; notifications := v; precision := precision s |}.

Definition setPrecision (v : Z) (s : settings) : settings :=
  {| darkMode := darkMode s; notifications := notifications s; precision := v |}.

(** Line 70 of [settings.tsx]: the "-" button. *)
Definition press_minus (s : settings) : settings :=
  setPrecision (Z.max 0 (precision s - 1)) s.

(** Line 82 of [settings.tsx]: the "+" button. *)
Definition press_plus (s : settings) : settings :=
  setPrecision (Z.min 8 (precision s + 1)) s.

(** Lines 34-40 of [SettingsContext.tsx]: [None] is a missing provider. *)
Definition useSettings (context : option settings) : exec settings :=
  match context with
  | Some s => Ok s
  | None => Thrown
  end.

(** The events of the settings screen. *)
Inductive settings_step : settings -> settings -> Prop :=
| step_switch (v : bool) (s : settings) : settings_step s (setDarkMode v s)
| step_minus (s : settings) : settings_step s (press_minus s)
| step_plus (s : settings) : settings_step s (press_plus s).

Inductive reachable : settings -> Prop :=
| reachable_init : reachable initial_settings
| reachable_step (s s' : settings) : reachable s -> settings_step s s' -> reachable s'.

#[export] Hint Constructors settings_step reachable : heun.

Definition precision_ok (s : settings) : Prop := 0 <= precision s <= 8.

Lemma settings_step_preserves (s s' : settings) :
  settings_step s s' -> precision_ok s -> precision_ok s'.
Proof. unfold precision_ok. intros [v s0|s0|s0]; cbn [press_plus press_minus setPrecision setDarkMode precision]; lia. Qed.

(** C11. Every state the settings screen can reach has
    [0 <= precision <= 8], so [toFixed(precision)] in the calculator never
    throws. *)
Theorem reachable_precision_ok (s : settings) : reachable s -> 0 <= precision s <= 8.
Proof.
  induction 1 as [|s s' _ IH Hstep].
  - cbn. lia.
  - exact (settings_step_preserves s s' Hstep IH).
Qed.

Lemma reachable_precision_ok_witness :
  reachable (press_plus (press_plus initial_settings)) /\
  0 <= precision (press_plus (press_plus initial_settings)) <= 8.
Proof.
  assert (H : reachable (press_plus (press_plus initial_settings))) by eauto 6 with heun.
  split; [exact H | apply reachable_precision_ok; exact H].
Defined.

Lemma reachable_plus (s : settings) : reachable s -> reachable (press_plus s).
Proof. eauto with heun. Qed.

Lemma reachable_minus (s : settings) : reachable s -> reachable (press_minus s).
Proof. eauto with heun. Qed.

(** From precision [4], [k] presses of a button reach [4 + k] or [4 - k]. *)
Lemma reachable_presses (k : nat) :
  (Z.of_nat k <= 4)%Z ->
  (exists s, reachable s /\ precision s = 4 + Z.of_nat k) /\
  (exists s, reachable s /\ precision s = 4 - Z.of_nat k).
Proof.
  induction k as [|k IH]; intros Hk.
  - split; exists initial_settings; split; auto with heun.
  - destruct IH as [[s1 [R1 P1]] [s2 [R2 P2]]]; [lia|].
    split; [exists (press_plus s1) | exists (press_minus s2)];
      (split; [auto using reachable_plus, reachable_minus|]);
      cbn [press_plus press_minus setPrecision precision]; lia.
Qed.

(** C12. Every precision from 0 to 8 can be selected: the buttons reach
    each value in the range. *)
Theorem precision_range_reachable (p : Z) :
  0 <= p <= 8 -> exists s, reachable s /\ precision s = p.
Proof.
  intros Hp. destruct (Z.le_gt_cases 4 p) as [Hle|Hgt].
  - destruct (reachable_presses (Z.to_nat (p - 4))) as [[s [R P]] _]; [lia|].
    exists s. split; [exact R | lia].
  - destruct (reachable_presses (Z.to_nat (4 - p))) as [_ [s [R P]]]; [lia|].
    exists s. split; [exact R | lia].
Qed.

Lemma precision_range_reachable_witness :
  exists s, reachable s /\ precision s = 0.
Proof. apply precision_range_reachable. lia. Defined.
