(* ===== verification/App.v ===== *)
(** * The two screens together: settings feed the calculator's precision

    [src/contexts/SettingsContext.tsx] provides the settings to both
    screens. The calculator reads [precision] with [useSettings()] when it
    renders (line 15 of [index.tsx]), and [formatNumber] uses it when
    Solve is pressed. The settings screen changes it with its buttons.

    The calculator relies on one promise of the settings: every reachable
    state has a precision in [0..8], so [toFixed(precision)] never
    throws. [precision_store] states that promise as an interface (a
    record of a state machine and its law). The app's step relation
    [app_step] interleaves the events of both screens in any order, and
    its invariant is proved against the interface. [settings_store]
    discharges the law with the settings screen of [Settings]. *)

From Stdlib Require Import String List ZArith Lia Relations.
From S2P Require Import Prelude Number Format Exact Evaluator Parse Stepper Calculator Settings.
Import ListNotations.

(** The promise of the settings to the calculator. *)
Record precision_store : Type := {
  store : Type;
  store_init : store;
  store_step : store -> store -> Prop;
  store_precision : store -> Z;
  store_precision_ok : forall s, clos_refl_trans_n1 _ store_step store_init s ->
    (0 <= store_precision s <= 8)%Z
}.

Lemma settings_reachable_rt (s : settings) :
  clos_refl_trans_n1 _ settings_step initial_settings s -> precision_ok s.
Proof.
  induction 1 as [|s s' Hstep _ IH]; [cbn; unfold precision_ok; cbn; lia|].
  exact (settings_step_preserves s s' Hstep IH).
Qed.

(** The settings context and screen implement the interface. *)
Definition settings_store : precision_store := {|
  store := settings;
  store_init := initial_settings;
  store_step := settings_step;
  store_precision := precision;
  store_precision_ok := settings_reachable_rt
|}.

Section App.
Variable P : precision_store.
Context {R : Type} `{JSNumber R}.
Variable evaluate : string -> R -> R -> option R.

Record app : Type := mk_app {
  app_settings : store P;
  app_calc : calculator
}.

Definition app_init : app := mk_app (store_init P) initial_calculator.

(** An event of either screen. Solve formats with the precision of the
    settings at the time of the press, a JavaScript number that
    [toFixed] range-checks ([Calculator.solveEulerModified_js]). *)
Inductive app_step : app -> app -> Prop :=
| app_settings_step (s s' : store P) (c : calculator) :
    store_step P s s' -> app_step (mk_app s c) (mk_app s' c)
| app_edit (s : store P) (fl : field) (v : string) (c : calculator) :
    app_step (mk_app s c) (mk_app s (set_field fl v c))
| app_solve (s : store P) (fuel : nat) (c c' : calculator) :
    solveEulerModified_js evaluate (store_precision P s) fuel c = Some c' ->
    app_step (mk_app s c) (mk_app s c').

Definition app_ok (a : app) : Prop :=
  clos_refl_trans_n1 _ (store_step P) (store_init P) (app_settings a) /\
  exists p, (p <= 8)%nat /\ solution_ok p (app_calc a).

Lemma app_step_ok (a a' : app) : app_step a a' -> app_ok a -> app_ok a'.
Proof.
  intros Hs [Hrt [p [Hp Hok]]]. destruct Hs as [s s' c Hst|s fl v c|s fuel c c' E]; cbn [app_settings app_calc] in *.
  - split; [exact (Relation_Operators.rtn1_trans _ _ _ _ _ Hst Hrt)|]. eauto.
  - split; [exact Hrt|]. exists p. split; [exact Hp|].
    unfold solution_ok in *. cbn [app_calc]. rewrite solution_set_field. exact Hok.
  - split; [exact Hrt|]. exists (Z.to_nat (store_precision P s)). split.
    + pose proof (store_precision_ok P s Hrt). lia.
    + exact (solveEulerModified_js_ok evaluate _ fuel c c' E).
Qed.

Lemma app_settings_reachable (a : app) :
  clos_refl_trans_n1 _ app_step app_init a ->
  clos_refl_trans_n1 _ (store_step P) (store_init P) (app_settings a).
Proof.
  induction 1 as [|a a' Hs _ IH]; [constructor|].
  destruct Hs as [s s' c Hst|s fl v c|s fuel c c' E]; cbn [app_settings] in *; [|exact IH..].
  exact (Relation_Operators.rtn1_trans _ _ _ _ _ Hst IH).
Qed.

(** C20. Whatever the order of the events of the two screens, every
    reachable state of the app has settings the settings screen can reach
    and a results panel holding nothing, the error line, or a complete
    trace formatted with a precision in [0..8]. *)
Theorem app_reachable_ok (a : app) :
  clos_refl_trans_n1 _ app_step app_init a -> app_ok a.
Proof.
  induction 1 as [|a a' Hs _ IH].
  - split; [constructor|]. exists 0%nat. split; [lia | left; reflexivity].
  - exact (app_step_ok a a' Hs IH).
Qed.

(** C22. Solve runs at the settings' precision and never hits
    [toFixed]'s [RangeError]. Whatever the order of the events of the two
    screens, an event in a reachable state that leaves the settings as
    they are either leaves the calculator as it is, or types into one
    field, or is a press of Solve whose result is exactly what the handler
    computes at the precision the settings hold: never the error line of
    an out-of-range [toFixed] (the range check of line 51 always
    passes). *)
Theorem app_solve_at_store_precision (a a' : app) :
  clos_refl_trans_n1 _ app_step app_init a -> app_step a a' ->
  app_settings a' = app_settings a ->
  app_calc a' = app_calc a \/
  (exists fl v, app_calc a' = set_field fl v (app_calc a)) \/
  exists fuel, solveEulerModified evaluate (Z.to_nat (store_precision P (app_settings a))) fuel (app_calc a) =
               Some (app_calc a').
Proof.
  intros Ha Hs Heq. pose proof (store_precision_ok P _ (app_settings_reachable a Ha)) as Hp.
  destruct Hs as [s s' c _|s fl v c|s fuel c c' E]; cbn [app_settings app_calc] in *.
  - left. reflexivity.
  - right; left. eauto.
  - right; right. exists fuel. unfold solveEulerModified_js in E.
    replace (toFixed_digits_ok (store_precision P s)) with true in E; [exact E|].
    symmetry. unfold toFixed_digits_ok. apply andb_true_intro. split; apply Z.leb_le; lia.
Qed.
End App.

Arguments app_calc {P}.
Arguments app_settings {P}.

Lemma app_reachable_ok_witness :
  exists a, clos_refl_trans_n1 _ (app_step settings_store stub_evaluate) (app_init settings_store) a /\
    app_ok settings_store a /\ solution (app_calc a) <> [].
Proof.
  set (a1 := mk_app settings_store (press_plus initial_settings) initial_calculator).
  assert (H1 : clos_refl_trans_n1 _ (app_step settings_store stub_evaluate) (app_init settings_store) a1).
  { apply (Relation_Operators.rtn1_trans _ _ _ (app_init settings_store)); [|apply rtn1_refl].
    apply (app_settings_step settings_store stub_evaluate). apply step_plus. }
  eexists. split; [|split].
  - apply (Relation_Operators.rtn1_trans _ _ _ a1); [|exact H1].
    apply (app_solve settings_store stub_evaluate _ 20). vm_compute. reflexivity.
  - apply (app_reachable_ok settings_store stub_evaluate).
    apply (Relation_Operators.rtn1_trans _ _ _ a1); [|exact H1].
    apply (app_solve settings_store stub_evaluate _ 20). vm_compute. reflexivity.
  - vm_compute. discriminate.
Defined.

Lemma app_solve_at_store_precision_witness :
  let c' := match solveEulerModified_js stub_evaluate 4 20 initial_calculator with
            | Some c => c | None => initial_calculator end in
  clos_refl_trans_n1 _ (app_step settings_store stub_evaluate) (app_init settings_store) (app_init settings_store) /\
  app_step settings_store stub_evaluate (app_init settings_store) (mk_app settings_store initial_settings c') /\
  (app_calc (mk_app settings_store initial_settings c') = app_calc (app_init settings_store) \/
  (exists fl v, app_calc (mk_app settings_store initial_settings c') =
                set_field fl v (app_calc (app_init settings_store))) \/
  exists fuel, solveEulerModified stub_evaluate
                 (Z.to_nat (store_precision settings_store (app_settings (app_init settings_store)))) fuel
                 (app_calc (app_init settings_store)) =
               Some (app_calc (mk_app settings_store initial_settings c'))).
Proof.
  intros c'.
  assert (Hr : clos_refl_trans_n1 _ (app_step settings_store stub_evaluate)
                 (app_init settings_store) (app_init settings_store)) by apply rtn1_refl.
  assert (Hs : app_step settings_store stub_evaluate (app_init settings_store)
                 (mk_app settings_store initial_settings c'))
    by (apply (app_solve settings_store stub_evaluate initial_settings 20); vm_compute; reflexivity).
  split; [exact Hr | split; [exact Hs|]].
  exact (app_solve_at_store_precision settings_store stub_evaluate _ _ Hr Hs eq_refl).
Defined.
