(* ===== verification/Styles.v ===== *)
(** * Style sheets and style arrays

    The [StyleSheet.create] objects of the three screens, and how React
    Native resolves the [style] prop of an element: an array whose entries
    are [styles.name] references, object literals (the colours the code
    computes from [darkMode], the animated styles of [useAnimatedStyle]),
    or [false] (the value of [cond && styles.name] when [cond] fails).
    [StyleSheet.flatten] merges the entries left to right, a later entry
    overriding the properties of an earlier one; [false] and a reference
    to a name the sheet does not define contribute nothing.

    A style object is a [gmap] from property names to JavaScript values
    ([style_value]); [flatten] is the fold that merges the objects. *)

From Stdlib Require Import QArith String.
From stdpp Require Import base gmap strings list.

(** The JavaScript values style properties take. *)
Inductive style_value : Type :=
| Str (s : string)
| Num (q : Q)
| Obj (fields : list (string * style_value))
| Arr (items : list style_value).

(** An object literal: each key is assigned in turn. *)
Definition obj (l : list (string * style_value)) : gmap string style_value :=
  foldl (fun m kv => <[kv.1 := kv.2]> m) ∅ l.

(** [StyleSheet.create]: the object of named styles. *)
Definition create (l : list (string * list (string * style_value)))
    : gmap string (gmap string style_value) :=
  foldl (fun m kv => <[kv.1 := obj kv.2]> m) ∅ l.

(** The type of a sheet, for the files that do not load stdpp. *)
Definition style_sheet : Type := gmap string (gmap string style_value).

Definition shadow : list (string * style_value) :=
  [("shadowColor", Str "#000"); ("shadowOffset", Obj [("width", Num 0); ("height", Num 2)]);
   ("shadowOpacity", Num 0.1); ("shadowRadius", Num 4); ("elevation", Num 3)].

(** Lines 287-384 of [index.tsx]. [shadow] is the block the two cards
    repeat. *)
Definition index_styles : gmap string (gmap string style_value) :=
  create [
    ("container", [("flex", Num 1); ("padding", Num 16)]);
    ("titleContainer", [("alignItems", Str "center"); ("marginTop", Num 60); ("marginBottom", Num 30)]);
    ("title", [("fontSize", Num 28); ("fontWeight", Str "bold"); ("marginBottom", Num 8)]);
    ("subtitle", [("fontSize", Num 16); ("color", Str "#71717a")]);
    ("formContainer", [("borderRadius", Num 16); ("padding", Num 20); ("marginBottom", Num 20)] ++ shadow);
    ("inputGroup", [("marginBottom", Num 16)]);
    ("row", [("flexDirection", Str "row"); ("justifyContent", Str "space-between"); ("marginBottom", Num 16)]);
    ("halfWidth", [("width", Str "48%")]);
    ("label", [("marginBottom", Num 8); ("fontSize", Num 14)]);
    ("input", [("borderRadius", Num 8); ("padding", Num 12); ("fontSize", Num 16)]);
    ("button", [("backgroundColor", Str "#6366f1"); ("borderRadius", Num 8); ("padding", Num 16);
                ("alignItems", Str "center"); ("marginTop", Num 8)]);
    ("buttonText", [("color", Str "#fff"); ("fontSize", Num 16); ("fontWeight", Str "bold")]);
    ("resultsContainer", [("borderRadius", Num 16); ("padding", Num 20); ("marginBottom", Num 20)] ++ shadow);
    ("resultsTitle", [("fontSize", Num 20); ("fontWeight", Str "bold"); ("marginBottom", Num 16)]);
    ("solutionContainer", [("borderRadius", Num 8); ("padding", Num 16)]);
    ("solutionText", [("fontSize", Num 14); ("lineHeight", Num 20); ("fontFamily", Str "monospace")]);
    ("stepDivider", [("marginTop", Num 12); ("color", Str "#6366f1"); ("fontWeight", Str "bold")]);
    ("correctionHeader", [("color", Str "#a5b4fc"); ("fontWeight", Str "bold")]);
    ("correctionDetail", [("color", Str "#94a3b8")])
  ].

(** Lines 107-169 of [settings.tsx]. *)
Definition settings_styles : gmap string (gmap string style_value) :=
  create [
    ("container", [("flex", Num 1); ("padding", Num 16)]);
    ("content", [("marginTop", Num 60)]);
    ("title", [("fontSize", Num 28); ("fontWeight", Str "bold"); ("marginBottom", Num 24)]);
    ("section", [("borderRadius", Num 16); ("padding", Num 20); ("marginBottom", Num 20)] ++ shadow);
    ("sectionTitle", [("fontSize", Num 20); ("fontWeight", Str "bold"); ("marginBottom", Num 12)]);
    ("setting", [("flexDirection", Str "row"); ("justifyContent", Str "space-between");
                 ("alignItems", Str "center"); ("paddingVertical", Num 12);
                 ("borderBottomWidth", Num 1); ("borderBottomColor", Str "#2c2d31")]);
    ("settingText", [("fontSize", Num 16)]);
    ("precisionControls", [("flexDirection", Str "row"); ("alignItems", Str "center")]);
    ("precisionButton", [("width", Num 36); ("height", Num 36); ("borderRadius", Num 18);
                         ("justifyContent", Str "center"); ("alignItems", Str "center")]);
    ("buttonText", [("fontSize", Num 20); ("fontWeight", Str "bold")]);
    ("precisionText", [("fontSize", Num 16); ("marginHorizontal", Num 16)]);
    ("aboutText", [("fontSize", Num 14); ("lineHeight", Num 20)])
  ].

(** Lines 73-113 of [theory.tsx]: fixed colours. *)
Definition theory_styles : gmap string (gmap string style_value) :=
  create [
    ("container", [("flex", Num 1); ("backgroundColor", Str "#13151a"); ("padding", Num 16)]);
    ("section", [("backgroundColor", Str "#1a1b1e"); ("borderRadius", Num 16); ("padding", Num 20);
                 ("marginBottom", Num 20); ("marginTop", Num 60)]);
    ("title", [("fontSize", Num 28); ("fontWeight", Str "bold"); ("color", Str "#fff");
               ("marginBottom", Num 8); ("textAlign", Str "center")]);
    ("sectionTitle", [("fontSize", Num 20); ("fontWeight", Str "bold"); ("color", Str "#fff");
                      ("marginTop", Num 24); ("marginBottom", Num 12)]);
    ("text", [("fontSize", Num 16); ("color", Str "#a1a1aa"); ("lineHeight", Num 24); ("marginBottom", Num 12)]);
    ("formula", [("fontSize", Num 16); ("color", Str "#6366f1"); ("fontFamily", Str "monospace");
                 ("marginVertical", Num 8); ("paddingLeft", Num 16)])
  ].

(** ** Style arrays *)

(** An entry of a [style={[...]}] array. *)
Inductive style_entry : Type :=
| Sheet (name : string)                          (* styles.name *)
| Inline (props : list (string * style_value))   (* an object literal, an animated style *)
| Falsy.                                         (* false *)

(** [cond && styles.name]. *)
Definition when (cond : bool) (e : style_entry) : style_entry := if cond then e else Falsy.

Section Flatten.
Variable sheet : gmap string (gmap string style_value).

(** The properties an entry contributes. *)
Definition entry_props (e : style_entry) : gmap string style_value :=
  match e with
  | Sheet n => default ∅ (sheet !! n)
  | Inline p => obj p
  | Falsy => ∅
  end.

(** [StyleSheet.flatten]: [Object.assign] of the entries in order. *)
Definition flatten (arr : list style_entry) : gmap string style_value :=
  foldl (fun acc e => entry_props e ∪ acc) ∅ arr.

(** The resolved value of property [k]. *)
Definition style_prop (arr : list style_entry) (k : string) : option style_value := flatten arr !! k.

(** A resolved colour: a string value. *)
Definition style_color (arr : list style_entry) (k : string) : option string :=
  match style_prop arr k with Some (Str c) => Some c | _ => None end.

End Flatten.
