(* ===== verification/Anim.v ===== *)
(** * The entrance animations

    Each screen animates its sections in when it mounts: shared values
    ([useSharedValue(0)]) are given animations built with reanimated's
    [withSpring], [withDelay] and [withSequence], and [useAnimatedStyle]
    turns their current values into style objects (an opacity, a scale,
    a vertical offset).

    - [index.tsx] lines 24-49: [titleScale] springs to 1.2 and back to 1,
      [formOpacity] and [resultsOpacity] spring to 1 after 500 and 1000 ms;
    - [settings.tsx] lines 20-31: [containerOpacity] springs to 1 after
      200 ms (from [useEffect] with no dependencies: once, on mount);
    - [theory.tsx] lines 12-30: [titleOpacity] springs to 1 at once,
      [contentOpacity] after 300 ms.

    [index.tsx] and [theory.tsx] start their animations from the lazy
    initialiser of a [useState], which React also runs once, on mount.

    The spring's motion is physics this development does not model: the
    section variables [spring] and [spring_duration] give a spring's value
    over time and the time it takes to settle. [value a from t] is the
    value [t] ms after animation [a] starts from [from]. The values are
    exact rationals, where the app computes with binary64. *)

From Stdlib Require Import QArith Qminmax Lqa List String.
From S2P Require Import Styles.
Import ListNotations.
Local Open Scope Q_scope.
Local Open Scope string_scope.

(** The animations the screens build. *)
Inductive animation : Type :=
| withSpring (toValue : Q)
| withDelay (delayMs : Q) (a : animation)
| withSequence (steps : list animation).

(** Induction through the steps of a sequence. *)
Section AnimationInd.
Variable P : animation -> Prop.
Hypothesis H_spring : forall to, P (withSpring to).
Hypothesis H_delay : forall d a, P a -> P (withDelay d a).
Hypothesis H_sequence : forall l, Forall P l -> P (withSequence l).

Fixpoint animation_ind' (a : animation) : P a :=
  match a with
  | withSpring to => H_spring to
  | withDelay d a => H_delay d a (animation_ind' a)
  | withSequence l =>
      H_sequence l ((fix go (l : list animation) : Forall P l :=
                       match l with
                       | [] => @Forall_nil _ P
                       | a :: l => @Forall_cons _ P a l (animation_ind' a) (go l)
                       end) l)
  end.
End AnimationInd.

(** [t < d]. *)
Definition before (t d : Q) : bool := negb (Qle_bool d t).

Section Timeline.
Variable spring : Q -> Q -> Q -> Q.
Variable spring_duration : Q -> Q -> Q.

(** The value an animation ends at. *)
Fixpoint final (a : animation) (from : Q) : Q :=
  match a with
  | withSpring to => to
  | withDelay _ a => final a from
  | withSequence l =>
      (fix go (l : list animation) (from : Q) : Q :=
         match l with [] => from | a :: l => go l (final a from) end) l from
  end.

(** How long it runs: a sequence runs its steps one after the other,
    each from the value the previous one ended at. *)
Fixpoint duration (a : animation) (from : Q) : Q :=
  match a with
  | withSpring to => spring_duration from to
  | withDelay d a => d + duration a from
  | withSequence l =>
      (fix go (l : list animation) (from : Q) : Q :=
         match l with [] => 0 | a :: l => duration a from + go l (final a from) end) l from
  end.

(** The value [t] ms after the start. A delay holds the value it
    started from. *)
Fixpoint value (a : animation) (from t : Q) : Q :=
  match a with
  | withSpring to => if before t (spring_duration from to) then spring from to t else to
  | withDelay d a => if before t d then from else value a from (t - d)
  | withSequence l =>
      (fix go (l : list animation) (from t : Q) : Q :=
         match l with
         | [] => from
         | a :: l => if before t (duration a from) then value a from t
                     else go l (final a from) (t - duration a from)
         end) l from t
  end.

Lemma final_sequence_cons (a : animation) (l : list animation) (from : Q) :
  final (withSequence (a :: l)) from = final (withSequence l) (final a from).
Proof. reflexivity. Qed.

Lemma duration_sequence_cons (a : animation) (l : list animation) (from : Q) :
  duration (withSequence (a :: l)) from = duration a from + duration (withSequence l) (final a from).
Proof. reflexivity. Qed.

Lemma value_sequence_cons (a : animation) (l : list animation) (from t : Q) :
  value (withSequence (a :: l)) from t =
  if before t (duration a from) then value a from t
  else value (withSequence l) (final a from) (t - duration a from).
Proof. reflexivity. Qed.

Lemma before_false (t d : Q) : d <= t -> before t d = false.
Proof. intros H. unfold before. apply Qle_bool_iff in H. rewrite H. reflexivity. Qed.

Lemma before_true (t d : Q) : t < d -> before t d = true.
Proof.
  intros H. unfold before. destruct (Qle_bool d t) eqn:E; [|reflexivity].
  apply Qle_bool_iff in E. lra.
Qed.

(** Every delay is non-negative, as the literals of the screens are. *)
Fixpoint delays_ok (a : animation) : bool :=
  match a with
  | withSpring _ => true
  | withDelay d a => Qle_bool 0 d && delays_ok a
  | withSequence l =>
      (fix go (l : list animation) : bool :=
         match l with [] => true | a :: l => delays_ok a && go l end) l
  end.

Lemma delays_ok_sequence_cons (a : animation) (l : list animation) :
  delays_ok (withSequence (a :: l)) = delays_ok a && delays_ok (withSequence l).
Proof. reflexivity. Qed.

Hypothesis spring_duration_nonneg : forall from to, 0 <= spring_duration from to.

Lemma duration_nonneg (a : animation) :
  delays_ok a = true -> forall from, 0 <= duration a from.
Proof.
  induction a as [to|d a IH|l IH] using animation_ind'; intros Ha from.
  - apply spring_duration_nonneg.
  - cbn [delays_ok] in Ha. apply andb_true_iff in Ha as [Hd Ha].
    apply Qle_bool_iff in Hd. cbn [duration]. specialize (IH Ha from). lra.
  - revert from. induction IH as [|a l Ha' _ IHl]; intros from; [apply Qle_refl|].
    rewrite delays_ok_sequence_cons in Ha. apply andb_true_iff in Ha as [Ha1 Ha2].
    rewrite duration_sequence_cons. specialize (Ha' Ha1 from). specialize (IHl Ha2 (final a from)). lra.
Qed.

(** Once an animation has run for its duration, its value is the one
    it ends at, whatever the spring does on the way. *)
Lemma value_settled (a : animation) :
  delays_ok a = true -> forall from t, duration a from <= t -> value a from t = final a from.
Proof.
  induction a as [to|d a IH|l IH] using animation_ind'; intros Ha from t Ht.
  - cbn [value duration final] in *. now rewrite before_false.
  - cbn [delays_ok] in Ha. apply andb_true_iff in Ha as [_ Ha].
    cbn [value duration final] in *. pose proof (duration_nonneg a Ha from).
    rewrite before_false by lra. apply IH; [exact Ha | lra].
  - revert from t Ht. induction IH as [|a l Ha' _ IHl]; intros from t Ht; [reflexivity|].
    rewrite delays_ok_sequence_cons in Ha. apply andb_true_iff in Ha as [Ha1 Ha2].
    rewrite duration_sequence_cons in Ht. rewrite value_sequence_cons, final_sequence_cons.
    pose proof (duration_nonneg (withSequence l) Ha2 (final a from)).
    rewrite before_false by lra. apply IHl; [exact Ha2 | lra].
Qed.
End Timeline.

(** ** The screens' shared values and animated styles *)

(** Lines 42-49 of [index.tsx]. *)
Definition titleScale_anim : animation := withSequence [withSpring 1.2; withSpring 1].
Definition formOpacity_anim : animation := withDelay 500 (withSpring 1).
Definition resultsOpacity_anim : animation := withDelay 1000 (withSpring 1).

(** Lines 27-31 of [settings.tsx]. *)
Definition containerOpacity_anim : animation := withSequence [withDelay 200 (withSpring 1)].

(** Lines 25-30 of [theory.tsx]. *)
Definition titleOpacity_anim : animation := withSequence [withSpring 1].
Definition contentOpacity_anim : animation := withDelay 300 (withSpring 1).

(** The shared values of the calculator (lines 24-26) and of the theory
    screen (lines 12-13). *)
Record calculator_values : Type := {
  titleScale : Q;
  formOpacity : Q;
  resultsOpacity : Q
}.

Record theory_values : Type := {
  titleOpacity : Q;
  contentOpacity : Q
}.

(** [translateY: (1 - v) * d]. *)
Definition slide_in (v d : Q) : list (string * style_value) :=
  [("opacity", Num v); ("transform", Arr [Obj [("translateY", Num ((1 - v) * d))]])].

(** Lines 28-40 of [index.tsx]. *)
Definition titleStyle (v : calculator_values) : list (string * style_value) :=
  [("transform", Arr [Obj [("scale", Num (titleScale v))]])].
Definition formStyle (v : calculator_values) : list (string * style_value) :=
  slide_in (formOpacity v) 50.
Definition resultsStyle (v : calculator_values) : list (string * style_value) :=
  slide_in (resultsOpacity v) 30.

(** Lines 22-25 of [settings.tsx]. *)
Definition containerStyle (containerOpacity : Q) : list (string * style_value) :=
  slide_in containerOpacity 30.

(** Lines 15-23 of [theory.tsx]. *)
Definition theory_titleStyle (v : theory_values) : list (string * style_value) :=
  slide_in (titleOpacity v) 50.
Definition contentStyle (v : theory_values) : list (string * style_value) :=
  slide_in (contentOpacity v) 30.

Section Screens.
Variable spring : Q -> Q -> Q -> Q.
Variable spring_duration : Q -> Q -> Q.
Hypothesis spring_duration_nonneg : forall from to, 0 <= spring_duration from to.

(** The shared values [t] ms after the screen mounts, every one starting
    from [useSharedValue(0)]. *)
Definition calculator_values_at (t : Q) : calculator_values := {|
  titleScale := value spring spring_duration titleScale_anim 0 t;
  formOpacity := value spring spring_duration formOpacity_anim 0 t;
  resultsOpacity := value spring spring_duration resultsOpacity_anim 0 t
|}.

Definition containerOpacity_at (t : Q) : Q := value spring spring_duration containerOpacity_anim 0 t.

Definition theory_values_at (t : Q) : theory_values := {|
  titleOpacity := value spring spring_duration titleOpacity_anim 0 t;
  contentOpacity := value spring spring_duration contentOpacity_anim 0 t
|}.

(** When every animation of a screen has finished. *)
Definition calculator_settle : Q :=
  Qmax (duration spring_duration titleScale_anim 0)
    (Qmax (duration spring_duration formOpacity_anim 0) (duration spring_duration resultsOpacity_anim 0)).
Definition settings_settle : Q := duration spring_duration containerOpacity_anim 0.
Definition theory_settle : Q :=
  Qmax (duration spring_duration titleOpacity_anim 0) (duration spring_duration contentOpacity_anim 0).

Lemma settled (a : animation) (t : Q) :
  delays_ok a = true -> duration spring_duration a 0 <= t ->
  value spring spring_duration a 0 t = final a 0.
Proof. intros Ha Ht. exact (value_settled spring spring_duration spring_duration_nonneg a Ha 0 t Ht). Qed.

(** The delays order the entrance: the form stays hidden for its first
    500 ms and the results panel for 1000 ms, whatever the spring. *)
Lemma entrance_order (t : Q) :
  t < 500 -> formOpacity (calculator_values_at t) = 0 /\ resultsOpacity (calculator_values_at t) = 0.
Proof.
  intros Ht. unfold calculator_values_at, formOpacity_anim, resultsOpacity_anim. cbn [formOpacity resultsOpacity value].
  rewrite !before_true by lra. split; reflexivity.
Qed.

(** C18. The entrance animations end with every section in place. Once
    all animations of a screen have run, whatever the spring does on the
    way (the title's overshoot to 1.2 included), the calculator's title
    has scale 1, and every animated section of the three screens has
    opacity 1 and no vertical offset. *)
Theorem entrance_animations_settle (t : Q) :
  (calculator_settle <= t ->
     titleStyle (calculator_values_at t) = [("transform", Arr [Obj [("scale", Num 1)]])] /\
     formStyle (calculator_values_at t) = slide_in 1 50 /\
     resultsStyle (calculator_values_at t) = slide_in 1 30) /\
  (settings_settle <= t -> containerStyle (containerOpacity_at t) = slide_in 1 30) /\
  (theory_settle <= t ->
     theory_titleStyle (theory_values_at t) = slide_in 1 50 /\
     contentStyle (theory_values_at t) = slide_in 1 30).
Proof.
  unfold calculator_settle, settings_settle, theory_settle.
  split; [|split]; intros Ht;
    repeat match goal with H : Qmax _ _ <= _ |- _ => apply Q.max_lub_iff in H as [? ?] end;
    repeat split;
    unfold titleStyle, formStyle, resultsStyle, containerStyle, theory_titleStyle, contentStyle,
      calculator_values_at, containerOpacity_at, theory_values_at;
    cbn [titleScale formOpacity resultsOpacity titleOpacity contentOpacity];
    rewrite settled by (reflexivity || assumption); reflexivity.
Qed.
End Screens.

(** A spring that moves linearly for 300 ms. *)
Definition linear_spring (from to t : Q) : Q := from + (to - from) * (t / 300).

Lemma entrance_animations_settle_witness :
  (Qle_bool (calculator_settle (fun _ _ => 300)) 2000 = true /\
   Qle_bool (settings_settle (fun _ _ => 300)) 2000 = true /\
   Qle_bool (theory_settle (fun _ _ => 300)) 2000 = true) /\
  ((calculator_settle (fun _ _ => 300) <= 2000 ->
     titleStyle (calculator_values_at linear_spring (fun _ _ => 300) 2000) =
       [("transform", Arr [Obj [("scale", Num 1)]])] /\
     formStyle (calculator_values_at linear_spring (fun _ _ => 300) 2000) = slide_in 1 50 /\
     resultsStyle (calculator_values_at linear_spring (fun _ _ => 300) 2000) = slide_in 1 30) /\
   (settings_settle (fun _ _ => 300) <= 2000 ->
     containerStyle (containerOpacity_at linear_spring (fun _ _ => 300) 2000) = slide_in 1 30) /\
   (theory_settle (fun _ _ => 300) <= 2000 ->
     theory_titleStyle (theory_values_at linear_spring (fun _ _ => 300) 2000) = slide_in 1 50 /\
     contentStyle (theory_values_at linear_spring (fun _ _ => 300) 2000) = slide_in 1 30)).
Proof.
  split; [vm_compute; auto|].
  apply (entrance_animations_settle linear_spring (fun _ _ => 300)).
  intros _ _. vm_compute. discriminate.
Defined.
