(* ===== verification/View.v ===== *)
(** * What the screens render

    The JSX of the three screens, as trees of [node]s: the React Native
    components [ScrollView], [View] and [Animated.View] ([Box]), [Text]
    ([Label]), [TextInput] ([Input]), [TouchableOpacity] ([Button]) and
    [Switch] ([Toggle]). A node keeps its [style] array as written
    ([Styles.style_entry]: the [styles.name] references, the colour
    objects computed from [darkMode], the animated styles of [Anim]), its
    text, and its event handler as an [action]. Each screen is rendered
    with the current values of its animations' shared values.

    - [render_calculator]: lines 111-284 of [src/app/(tabs)/index.tsx];
    - [render_settings]: lines 33-104 of [src/app/(tabs)/settings.tsx];
    - [theory_screen]: lines 32-70 of [src/app/(tabs)/theory.tsx];
    - [tabs], [render_tab]: [src/app/(tabs)/_layout.tsx].

    The theorems say that the settings change the calculator tab only in
    its colours, that every input shows the state field it edits, that
    the screens' step relations of [Calculator] and [Settings] are exactly
    the events the rendered handlers fire. [Look] resolves the style
    arrays. *)

From Stdlib Require Import String Ascii List ZArith QArith Lia.
From S2P Require Import Prelude Number Format Exact Evaluator Parse Stepper Calculator Settings App Styles Anim.
Import ListNotations.
Local Open Scope string_scope.

(** The handlers the screens attach to their elements. *)
Inductive action : Type :=
| SetField (fl : field)     (* onChangeText={setEquation}, ... *)
| SolvePress                (* onPress={solveEulerModified} *)
| PressMinus                (* onPress of "-" *)
| PressPlus                 (* onPress of "+" *)
| SetDark.                  (* onValueChange={setDarkMode} *)

(** An element with its [style] array, its text, its handler. *)
Inductive node : Type :=
| Box (component : string) (style : list style_entry) (children : list node)
| Label (style : list style_entry) (text : string)
| Input (value : string) (on_change : field) (style : list style_entry)
    (placeholder : option string) (placeholder_color : string) (numeric : bool)
| Button (style : list style_entry) (on_press : action) (children : list node)
| Toggle (value : bool) (on_change : action) (track_off track_on thumb : string).

(** [darkMode ? d : l]. *)
Definition themed (dark : bool) (d l : string) : string := if dark then d else l.

(** [{ color: darkMode ? d : l }] and [{ backgroundColor: darkMode ? d : l }]. *)
Definition color_style (dark : bool) (d l : string) : style_entry :=
  Inline [("color", Str (themed dark d l))].
Definition background_style (dark : bool) (d l : string) : style_entry :=
  Inline [("backgroundColor", Str (themed dark d l))].

(** ** The calculator screen *)

(** The state field a [TextInput] shows ([value={equation}], ...). *)
Definition field_value (fl : field) (s : calculator) : string :=
  match fl with
  | Equation => equation s
  | InitialX => initialX s
  | InitialY => initialY s
  | StepSize => stepSize s
  | FinalX => finalX s
  | Corrections => corrections s
  end.

(** Lines 132-144 and their five copies: the input of field [fl]. Only
    the equation has a placeholder, the others a numeric keyboard. *)
Definition text_input (dark : bool) (s : calculator) (fl : field) : node :=
  Input (field_value fl s) fl
    [Sheet "input"; Inline [("backgroundColor", Str (themed dark "#2c2d31" "#f3f4f6"));
                            ("color", Str (themed dark "#fff" "#000"))]]
    (match fl with Equation => Some "e.g., y' = x + y" | _ => None end)
    (themed dark "#71717a" "#9ca3af")
    (match fl with Equation => false | _ => true end).

(** An [inputGroup]: the label above the input. *)
Definition input_group (dark : bool) (style : list style_entry) (label : string) (input : node) : node :=
  Box "View" style [Label [Sheet "label"; color_style dark "#fff" "#000"] label; input].

(** Lines 268-274: the style of a line of the solution, by its prefix. *)
Definition solution_line_style (dark : bool) (step : string) : list style_entry :=
  [Sheet "solutionText"; color_style dark "#fff" "#000";
   when (prefix nl step) (Sheet "stepDivider");
   when (prefix "  Correction" step) (Sheet "correctionHeader");
   when (prefix "    " step) (Sheet "correctionDetail")].

(** Lines 265-278: one line of the solution. *)
Definition solution_line (dark : bool) (step : string) : node :=
  Label (solution_line_style dark step) step.

(** Lines 256-281: nothing while [solution] is empty. *)
Definition results (dark : bool) (s : calculator) : list node :=
  match solution s with
  | [] => []
  | lines =>
      [Label [Sheet "resultsTitle"; color_style dark "#fff" "#000"] "Solution Steps";
       Box "View" [Sheet "solutionContainer"; background_style dark "#2c2d31" "#f3f4f6"]
         (map (solution_line dark) lines)]
  end.

(** Lines 111-284, with the shared values [v] of the animations. *)
Definition render_calculator (dark : bool) (s : calculator) (v : calculator_values) : node :=
  Box "ScrollView" [Sheet "container"; background_style dark "#13151a" "#f5f5f5"]
    [Box "Animated.View" [Sheet "titleContainer"; Inline (titleStyle v)]
       [Label [Sheet "title"; color_style dark "#fff" "#000"] "Euler's Modified Method";
        Label [Sheet "subtitle"] "Differential Equation Solver"];
     Box "Animated.View" [Sheet "formContainer"; Inline (formStyle v); background_style dark "#1a1b1e" "#fff"]
       [input_group dark [Sheet "inputGroup"] "Differential Equation" (text_input dark s Equation);
        Box "View" [Sheet "row"]
          [input_group dark [Sheet "inputGroup"; Sheet "halfWidth"] "Initial X" (text_input dark s InitialX);
           input_group dark [Sheet "inputGroup"; Sheet "halfWidth"] "Initial Y" (text_input dark s InitialY)];
        Box "View" [Sheet "row"]
          [input_group dark [Sheet "inputGroup"; Sheet "halfWidth"] "Step Size" (text_input dark s StepSize);
           input_group dark [Sheet "inputGroup"; Sheet "halfWidth"] "Final X Value" (text_input dark s FinalX)];
        input_group dark [Sheet "inputGroup"] "Number of Corrections per Step"
          (text_input dark s Corrections);
        Button [Sheet "button"] SolvePress [Label [Sheet "buttonText"] "Solve"]];
     Box "Animated.View" [Sheet "resultsContainer"; Inline (resultsStyle v); background_style dark "#1a1b1e" "#fff"]
       (results dark s)].

(** ** The settings screen *)

(** Lines 33-104, with the shared value [containerOpacity]. [{precision}]
    renders the number with [String]. *)
Definition render_settings (st : settings) (containerOpacity : Q) : node :=
  let dark := darkMode st in
  Box "View" [Sheet "container"; background_style dark "#13151a" "#f5f5f5"]
    [Box "Animated.View" [Sheet "content"; Inline (containerStyle containerOpacity)]
       [Label [Sheet "title"; color_style dark "#fff" "#000"] "Settings";
        Box "View" [Sheet "section"; background_style dark "#1a1b1e" "#fff"]
          [Box "View" [Sheet "setting"]
             [Label [Sheet "settingText"; color_style dark "#fff" "#000"] "Dark Mode";
              Toggle (darkMode st) SetDark "#3f3f46" "#6366f1" (themed dark "#fff" "#71717a")];
           Box "View" [Sheet "setting"]
             [Label [Sheet "settingText"; color_style dark "#fff" "#000"] "Decimal Precision";
              Box "View" [Sheet "precisionControls"]
                [Button [Sheet "precisionButton"; background_style dark "#2c2d31" "#e5e7eb"] PressMinus
                   [Label [Sheet "buttonText"; color_style dark "#fff" "#000"] "-"];
                 Label [Sheet "precisionText"; color_style dark "#fff" "#000"]
                   (Z_to_decimal (precision st));
                 Button [Sheet "precisionButton"; background_style dark "#2c2d31" "#e5e7eb"] PressPlus
                   [Label [Sheet "buttonText"; color_style dark "#fff" "#000"] "+"]]]];
        Box "View" [Sheet "section"; background_style dark "#1a1b1e" "#fff"]
          [Label [Sheet "sectionTitle"; color_style dark "#fff" "#000"] "About";
           Label [Sheet "aboutText"; color_style dark "#71717a" "#6b7280"]
             ("Euler's Modified Method Calculator" ++ nl ++ "Aryan Singh BT23EEE113")]]].

(** ** The theory screen *)

(** Lines 32-70: static text, with the shared values [v]. *)
Definition theory_screen (v : theory_values) : node :=
  Box "ScrollView" [Sheet "container"]
    [Box "Animated.View" [Sheet "section"; Inline (theory_titleStyle v)]
       [Label [Sheet "title"] "Understanding Euler's Modified Method"];
     Box "Animated.View" [Sheet "section"; Inline (contentStyle v)]
       [Label [Sheet "sectionTitle"] "What is Euler's Modified Method?";
        Label [Sheet "text"]
          ("Euler's Modified Method is an improved version of Euler's Method for solving "
           ++ "ordinary differential equations (ODEs). It provides better accuracy by using "
           ++ "an average of the slopes at the beginning and end of each interval.");
        Label [Sheet "sectionTitle"] "The Algorithm";
        Label [Sheet "text"] "For a differential equation y' = f(x, y):";
        Label [Sheet "formula"] "1. Predictor: yₚ = yₙ + h·f(xₙ, yₙ)";
        Label [Sheet "formula"] "2. Corrector: yₙ₊₁ = yₙ + (h/2)·[f(xₙ, yₙ) + f(xₙ₊₁, yₚ)]";
        Label [Sheet "sectionTitle"] "Advantages";
        Label [Sheet "text"] "• More accurate than Euler's Method";
        Label [Sheet "text"] "• Self-starting (doesn't require multiple initial values)";
        Label [Sheet "text"] "• Relatively simple to implement";
        Label [Sheet "sectionTitle"] "When to Use It";
        Label [Sheet "text"]
          ("Use Euler's Modified Method when:" ++ nl
           ++ "• You need better accuracy than Euler's Method" ++ nl
           ++ "• The differential equation is well-behaved" ++ nl
           ++ "• You want a balance between simplicity and accuracy");
        Label [Sheet "sectionTitle"] "Error Analysis";
        Label [Sheet "text"]
          ("The local truncation error is O(h³), making it more accurate than Euler's Method "
           ++ "which has a local truncation error of O(h²).")]].

(** ** The tab layout *)

Inductive screen : Type := CalculatorTab | TheoryTab | SettingsTab.

(** Lines 16-42 of [_layout.tsx]: a [Tabs.Screen] per file of
    [app/(tabs)], its route name, title and [lucide] icon. *)
Record tab : Type := mk_tab {
  tab_name : string;
  tab_title : string;
  tab_icon : string;
  tab_screen : screen
}.

Definition tabs : list tab :=
  [mk_tab "index" "Calculator" "Calculator" CalculatorTab;
   mk_tab "theory" "Theory" "BookOpen" TheoryTab;
   mk_tab "settings" "Settings" "Settings" SettingsTab].

(** Lines 7-14: the [screenOptions], fixed colours whatever [darkMode]. *)
Record tab_bar_options : Type := {
  headerShown : bool;
  tab_bar_background : string;
  tab_bar_border_top : string;
  tabBarActiveTintColor : string;
  tabBarInactiveTintColor : string
}.

Definition tab_bar : tab_bar_options := {|
  headerShown := false;
  tab_bar_background := "#1a1b1e";
  tab_bar_border_top := "#2c2d31";
  tabBarActiveTintColor := "#6366f1";
  tabBarInactiveTintColor := "#71717a"
|}.

(** The screen a route name opens: the first tab with that name. *)
Definition screen_of_route (name : string) : option screen :=
  option_map tab_screen (find (fun t => String.eqb (tab_name t) name) tabs).

(** The shared values of the three screens' animations. *)
Record screen_values : Type := {
  calculator_anim : calculator_values;
  settings_anim : Q;
  theory_anim : theory_values
}.

(** What the tab [sc] shows in the app state [a]. The calculator
    ([useSettings] on line 14 of [index.tsx]) and the settings screen
    read the shared settings; the theory screen reads nothing. *)
Definition render_tab (sc : screen) (a : app settings_store) (v : screen_values) : node :=
  match sc with
  | CalculatorTab => render_calculator (darkMode (app_settings a)) (app_calc a) (calculator_anim v)
  | TheoryTab => theory_screen (theory_anim v)
  | SettingsTab => render_settings (app_settings a) (settings_anim v)
  end.

(** ** Reading a tree *)

(** The properties that hold a colour. *)
Definition color_key (k : string) : bool := String.eqb k "color" || String.eqb k "backgroundColor".

(** An entry without its colours. *)
Definition erase_entry (e : style_entry) : style_entry :=
  match e with
  | Inline p => Inline (filter (fun kv => negb (color_key (fst kv))) p)
  | e => e
  end.

(** Every colour removed. *)
Fixpoint erase_colors (n : node) : node :=
  match n with
  | Box c st ch => Box c (map erase_entry st) (map erase_colors ch)
  | Label st t => Label (map erase_entry st) t
  | Input v fl st ph _ num => Input v fl (map erase_entry st) ph "" num
  | Button st a ch => Button (map erase_entry st) a (map erase_colors ch)
  | Toggle v a _ _ _ => Toggle v a "" "" ""
  end.

(** The handlers of a tree, in document order. *)
Fixpoint handlers (n : node) : list action :=
  match n with
  | Box _ _ ch => flat_map handlers ch
  | Label _ _ => []
  | Input _ fl _ _ _ _ => [SetField fl]
  | Button _ a ch => a :: flat_map handlers ch
  | Toggle _ a _ _ _ => [a]
  end.

(** The inputs of a tree: the text each shows and the field it edits. *)
Fixpoint inputs (n : node) : list (string * field) :=
  match n with
  | Box _ _ ch | Button _ _ ch => flat_map inputs ch
  | Input v fl _ _ _ _ => [(v, fl)]
  | _ => []
  end.

Definition all_fields : list field := [Equation; InitialX; InitialY; StepSize; FinalX; Corrections].

Definition field_eq_dec (a b : field) : {a = b} + {a <> b}.
Proof. decide equality. Defined.

(** What firing a handler of the calculator screen does. *)
Definition fires {R : Type} `{JSNumber R} (evaluate : string -> R -> R -> option R) (precision : nat)
    (a : action) (s s' : calculator) : Prop :=
  match a with
  | SetField fl => exists v, s' = set_field fl v s
  | SolvePress => exists fuel, solveEulerModified evaluate precision fuel s = Some s'
  | _ => False
  end.

(** What firing a handler of the settings screen does. *)
Definition fires_settings (a : action) (st st' : settings) : Prop :=
  match a with
  | SetDark => exists v, st' = setDarkMode v st
  | PressMinus => st' = press_minus st
  | PressPlus => st' = press_plus st
  | _ => False
  end.

(** ** Properties of the trees *)

Lemma solution_lines_plain (dark : bool) (lines : list string) :
  flat_map handlers (map (solution_line dark) lines) = [] /\
  flat_map inputs (map (solution_line dark) lines) = [].
Proof. induction lines as [|l ls [IH1 IH2]]; [split; reflexivity | cbn; rewrite IH1, IH2; split; reflexivity]. Qed.

Lemma results_plain (dark : bool) (s : calculator) :
  flat_map handlers (results dark s) = [] /\ flat_map inputs (results dark s) = [].
Proof.
  unfold results. destruct (solution s) as [|l ls]; [split; reflexivity|].
  destruct (solution_lines_plain dark (l :: ls)) as [H1 H2]. cbn - [map] in *.
  rewrite !app_nil_r, H1, H2. split; reflexivity.
Qed.

Lemma calculator_handlers (dark : bool) (s : calculator) (v : calculator_values) :
  handlers (render_calculator dark s v) = (map SetField all_fields ++ [SolvePress])%list.
Proof.
  cbn - [results]. destruct (results_plain dark s) as [H1 _]. rewrite H1. reflexivity.
Qed.

Lemma calculator_inputs (dark : bool) (s : calculator) (v : calculator_values) :
  inputs (render_calculator dark s v) = map (fun fl => (field_value fl s, fl)) all_fields.
Proof.
  cbn - [results]. destruct (results_plain dark s) as [_ H2]. rewrite H2. reflexivity.
Qed.

Lemma render_calculator_erase (dark : bool) (s : calculator) (v : calculator_values) :
  erase_colors (render_calculator dark s v) = erase_colors (render_calculator false s v).
Proof.
  destruct dark; [|reflexivity]. cbn - [results]. do 4 f_equal.
  unfold results. destruct (solution s) as [|l ls]; [reflexivity|].
  cbn [map erase_colors]. rewrite !map_map. reflexivity.
Qed.

(** C23. The calculator tab depends on the settings only through its
    colours. For any two settings, the Dark Mode switch and the decimal
    precision included, the calculator tab of the app renders the same
    components, styles, texts, inputs and handlers: changing the
    precision does not reformat the solution already shown. *)
Theorem calculator_tab_settings_colors_only (st st' : settings) (c : calculator) (v : screen_values) :
  erase_colors (render_tab CalculatorTab (mk_app settings_store st c) v) =
  erase_colors (render_tab CalculatorTab (mk_app settings_store st' c) v).
Proof.
  cbn [render_tab app_settings app_calc].
  rewrite (render_calculator_erase (darkMode st)), (render_calculator_erase (darkMode st')).
  reflexivity.
Qed.

(** C24. Every input shows what was typed into it. After typing [v] into
    the input of field [fl], the screen's six inputs show [v] for [fl]
    and their previous texts for the other fields, each input bound to
    the field it edits. *)
Theorem input_shows_typed_text (dark : bool) (s : calculator) (anim : calculator_values)
    (fl : field) (v : string) :
  inputs (render_calculator dark (set_field fl v s) anim) =
  map (fun fl' => (if field_eq_dec fl fl' then v else field_value fl' s, fl')) all_fields.
Proof.
  rewrite calculator_inputs. apply map_ext. intros fl'.
  destruct fl, fl'; reflexivity.
Qed.

Section Events.
Context {R : Type} `{JSNumber R}.
Variable evaluate : string -> R -> R -> option R.
Variable precision : nat.

(** C25. The step relation of the calculator screen is exactly what its
    rendered handlers do: a step is the firing of one handler on the
    screen, a text input's [onChangeText] or the Solve button's
    [onPress], and every handler's firing is a step. *)
Theorem calculator_step_is_ui (dark : bool) (anim : calculator_values) (s s' : calculator) :
  calculator_step evaluate precision s s' <->
  exists a, In a (handlers (render_calculator dark s anim)) /\ fires evaluate precision a s s'.
Proof.
  rewrite calculator_handlers. split.
  - intros [fl v s0|fuel s0 s1 E].
    + exists (SetField fl). split; [destruct fl; cbn; tauto | exists v; reflexivity].
    + exists SolvePress. split; [cbn; tauto | exists fuel; exact E].
  - intros [a [Hin Hf]]. cbn in Hin.
    repeat destruct Hin as [<-|Hin]; try contradiction; cbn [fires] in Hf;
      first [destruct Hf as [v ->]; apply step_edit | destruct Hf as [fuel E]; eapply step_solve; exact E].
Qed.
End Events.

(** C26. The step relation of the settings screen is exactly what its
    rendered handlers do: the Switch's [onValueChange] and the two
    buttons' [onPress]. *)
Theorem settings_step_is_ui (anim : Q) (st st' : settings) :
  settings_step st st' <->
  exists a, In a (handlers (render_settings st anim)) /\ fires_settings a st st'.
Proof.
  change (handlers (render_settings st anim)) with [SetDark; PressMinus; PressPlus]. split.
  - intros [v s0|s0|s0]; [exists SetDark; split; [left; reflexivity | exists v; reflexivity]
                       | exists PressMinus | exists PressPlus]; cbn; tauto.
  - intros [a [Hin Hf]]. cbn in Hin.
    repeat destruct Hin as [<-|Hin]; try contradiction; cbn in Hf.
    + destruct Hf as [v ->]. constructor.
    + subst. constructor.
    + subst. constructor.
Qed.
