(* ===== verification/Look.v ===== *)
(** * What the screens look like

    The style arrays of [View] resolved against the screens' style sheets
    of [Styles]: which sheet entries the trees refer to, the colour every
    text is drawn in and the background it is drawn on. A background is
    inherited from the nearest enclosing element that sets one, as React
    Native's views are transparent. *)

From Stdlib Require Import String List Bool QArith Lia.
From S2P Require Import Prelude Number Exact Stepper Calculator Settings Styles Anim View.
Import ListNotations.
Local Open Scope string_scope.

(** The background an element with style [st] gives its children. *)
Definition background (sheet : style_sheet) (st : list style_entry) (bg : option string) : option string :=
  match style_color sheet st "backgroundColor" with Some c => Some c | None => bg end.

(** Every text with the colour it is drawn in and its background: the
    labels, and the text and the placeholder of an input. *)
Fixpoint texts_on (sheet : style_sheet) (bg : option string) (n : node)
    : list (option string * option string) :=
  match n with
  | Box _ st ch | Button st _ ch => flat_map (texts_on sheet (background sheet st bg)) ch
  | Label st _ => [(style_color sheet st "color", bg)]
  | Input _ _ st _ ph _ =>
      [(style_color sheet st "color", background sheet st bg); (Some ph, background sheet st bg)]
  | Toggle _ _ _ _ _ => []
  end.

(** A text has a colour, a background, and they differ. *)
Definition legible (p : option string * option string) : bool :=
  match p with
  | (Some c, Some b) => negb (String.eqb c b)
  | _ => false
  end.

(** The colour of a line of the solution. *)
Definition line_color (dark : bool) (step : string) : option string :=
  style_color index_styles (solution_line_style dark step) "color".

(** The colour the last of a line's kinds gives it. *)
Definition kind_color (dark : bool) (kinds : list line_style) : option string :=
  match last (map Some kinds) None with
  | Some StepDivider => Some "#6366f1"
  | Some CorrectionHeader => Some "#a5b4fc"
  | Some CorrectionDetail => Some "#94a3b8"
  | None => Some (themed dark "#fff" "#000")
  end.

(** The colours of the lines of one step with [m] corrections: the
    divider, the predictor label, two predictor lines, then a header and
    two lines per correction. *)
Definition step_colors (dark : bool) (m : nat) : list (option string) :=
  Some "#6366f1" :: Some (themed dark "#fff" "#000") :: Some "#94a3b8" :: Some "#94a3b8"
    :: concat (repeat [Some "#a5b4fc"; Some "#94a3b8"; Some "#94a3b8"] m).

(** ** Lines of the solution *)

Lemma line_color_kinds (dark : bool) (step : string) :
  line_color dark step = kind_color dark (styles_of step).
Proof.
  unfold line_color, solution_line_style, styles_of.
  destruct dark, (prefix nl step), (prefix "  Correction" step), (prefix "    " step);
    vm_compute; reflexivity.
Qed.

Lemma solution_line_legible (dark : bool) (step : string) :
  forallb legible (texts_on index_styles (Some (themed dark "#2c2d31" "#f3f4f6")) (solution_line dark step)) = true.
Proof.
  cbn [texts_on solution_line forallb]. rewrite andb_true_r. fold (line_color dark step).
  rewrite line_color_kinds. unfold styles_of.
  destruct dark, (prefix nl step), (prefix "  Correction" step), (prefix "    " step); reflexivity.
Qed.

Lemma solution_lines_legible (dark : bool) (lines : list string) :
  forallb (fun n => forallb legible (texts_on index_styles (Some (themed dark "#2c2d31" "#f3f4f6")) n))
    (map (solution_line dark) lines) = true.
Proof.
  induction lines as [|l ls IH]; [reflexivity|].
  cbn [map forallb]. rewrite solution_line_legible, IH. reflexivity.
Qed.

(** ** The results panel *)

Lemma results_legible (dark : bool) (s : calculator) (v : calculator_values) (bg : option string) :
  forallb (fun n => forallb legible (texts_on index_styles
      (background index_styles [Sheet "resultsContainer"; Inline (resultsStyle v);
                                background_style dark "#1a1b1e" "#fff"] bg) n))
    (results dark s) = true.
Proof.
  replace (background index_styles _ bg) with (Some (themed dark "#1a1b1e" "#fff"))
    by (destruct dark; vm_compute; reflexivity).
  unfold results. destruct (solution s) as [|l ls]; [reflexivity|].
  cbn [forallb texts_on]. rewrite forallb_flat_map.
  replace (background index_styles _ _) with (Some (themed dark "#2c2d31" "#f3f4f6"))
    by (destruct dark; vm_compute; reflexivity).
  rewrite solution_lines_legible. destruct dark; reflexivity.
Qed.

(** ** The screens *)

(** C7. Every text is legible. In every state, in both themes and at
    every point of the entrance animations, every text of the three
    screens (labels, the solution's lines, the inputs' texts and
    placeholders) has a colour, is drawn on a background some enclosing
    element sets, and the two colours differ. *)
Theorem screens_legible (dark : bool) (s : calculator) (v : calculator_values)
    (st : settings) (o : Q) (tv : theory_values) :
  forallb legible (texts_on index_styles None (render_calculator dark s v)) = true /\
  forallb legible (texts_on settings_styles None (render_settings st o)) = true /\
  forallb legible (texts_on theory_styles None (theory_screen tv)) = true.
Proof.
  split; [|split]; [| unfold render_settings; destruct (darkMode st); vm_compute; reflexivity
                   | vm_compute; reflexivity].
  unfold render_calculator.
  generalize (results_legible dark s v (background index_styles
    [Sheet "container"; background_style dark "#13151a" "#f5f5f5"] None)).
  generalize (results dark s). intros r Hr. cbn [texts_on flat_map].
  rewrite !forallb_app, forallb_flat_map, Hr. destruct dark; vm_compute; reflexivity.
Qed.

(** ** The colours of a run *)

Section RunColors.
Context {R : Type} `{JSNumber R}.
Variable precision : nat.
Variable dark : bool.

Lemma header_colors (x0 y0 h xf c n : R) :
  map (line_color dark) (header precision x0 y0 h xf c n) = repeat (Some (themed dark "#fff" "#000")) 4.
Proof. rewrite (map_ext _ _ (line_color_kinds dark)). destruct dark; reflexivity. Qed.

Lemma final_line_color (cx cy : R) : line_color dark (final_line precision cx cy) = Some "#6366f1".
Proof. rewrite line_color_kinds. reflexivity. Qed.

Lemma step_block_colors (g : R -> R -> R) (h : R) (m : nat) (i : R) (p : R * R) :
  map (line_color dark) (step_block precision g h m i p) = step_colors dark m.
Proof.
  rewrite (map_ext _ _ (line_color_kinds dark)), <- map_map, step_block_styles.
  cbn [map]. rewrite concat_map, map_repeat. reflexivity.
Qed.

Lemma steps_trace_colors (g : R -> R -> R) (h : R) (m k : nat) :
  forall i p, map (line_color dark) (steps_trace precision g h m k i p) =
  concat (repeat (step_colors dark m) k).
Proof.
  induction k as [|k IH]; intros i p; [reflexivity|].
  cbn [steps_trace repeat concat]. rewrite map_app, step_block_colors, IH. reflexivity.
Qed.
End RunColors.

(** C17. The colours of a run's results. Take a right-hand side that
    always returns a number, and loops of [k] and [m] trips with
    [k + m] units of fuel. Solve shows a trace whose four header lines
    are in the theme's text colour. Every step shows its divider in
    indigo ([stepDivider]), the predictor label in the theme colour,
    the predictor lines in grey ([correctionDetail]), and per correction
    a light indigo header ([correctionHeader]) and two grey lines. The
    final value is drawn in indigo like a step divider, as it starts
    with a line break. *)
Theorem run_colors (dark : bool) {R : Type} `{JSNumber R} (f : R -> R -> option R) (g : R -> R -> R)
    (precision fuel : nat) (x0 y0 h xf c : R) (k m : nat) :
  (forall x y, f x y = Some (g x y)) ->
  trips (js_ceil ((xf - x0) / h)%js) k -> trips c m -> (k + m <= fuel)%nat ->
  exists lines, solve f precision fuel x0 y0 h xf c = Some lines /\
    map (line_color dark) lines =
    (repeat (Some (themed dark "#fff" "#000")) 4 ++ concat (repeat (step_colors dark m) k)
      ++ [Some "#6366f1"])%list.
Proof.
  intros Hf Hn Hc Hfuel. unfold solve.
  rewrite (try_body_trips f precision g Hf fuel x0 y0 h xf c k m Hn Hc Hfuel).
  eexists. split; [reflexivity|].
  rewrite !map_app, header_colors, steps_trace_colors. cbn [map]. rewrite final_line_color. reflexivity.
Qed.

Lemma run_colors_witness :
  exists lines, solve f_default 4 10 (Fin 0) (Fin 1) (Fin (1 # 4)) (Fin 1) (Fin 1) = Some lines /\
    map (line_color true) lines =
    (repeat (Some (themed true "#fff" "#000")) 4 ++ concat (repeat (step_colors true 1) 4)
      ++ [Some "#6366f1"])%list.
Proof.
  apply (run_colors true f_default xadd 4 10);
    [exact f_default_total
    | apply trips_b_spec; vm_compute; reflexivity
    | apply trips_b_spec; vm_compute; reflexivity
    | lia].
Defined.
