(* ===== verification/Float64.v ===== *)
(** * Binary64: the instance of [JSNumber] that JavaScript runs

    A JavaScript number is an IEEE 754 binary64 value, and [+ - * /] and
    [<] are the IEEE operations with rounding to nearest, ties to even.
    The kernel's primitive floats ([PrimFloat]) implement exactly these.
    The rest is defined on the exact value of a float ([float_value], a
    dyadic rational):
    - [f64_ceil] is [Math.ceil] (ECMA-262: an integral [x] is returned
      unchanged, and a result that rounds up to zero from below is [-0]);
    - [round_Q] is the Number value of a mathematical value: the nearest
      binary64, ties to even, [Infinity] beyond the largest finite value.
      It is what [parseFloat] and [parseInt] return;
    - [number_to_string] is Number::toString. It finds the fewest digits
      [s] and the exponent [n] such that [s * 10^(n-k)] rounds back to
      [x], taking the closer candidate (even on a tie), and lays them out
      in the fixed or the exponential form of ECMA-262;
    - [f64_toFixed] is [Number.prototype.toFixed] through
      [Format.toFixed_with] on the exact value, with [number_to_string]
      for values of at least [10^21].

    Theorems on this instance are concrete runs, checked by evaluation. *)

From Stdlib Require Import ZArith QArith Qround String Ascii List Lia Floats.
From S2P Require Import Prelude Number Format.
Import ListNotations.
Local Open Scope Z_scope.

(** ** Exact values *)

(** The value [m * 2^e] as a rational. *)
Definition dyadic (m : positive) (e : Z) : Q :=
  if 0 <=? e then inject_Z (Zpos m * 2 ^ e) else Qmake (Zpos m) (Z.to_pos (2 ^ (- e))).

(** The exact value of a finite float; [None] for the infinities and NaN. *)
Definition float_value (x : float) : option Q :=
  match Prim2SF x with
  | S754_zero _ => Some 0%Q
  | S754_finite s m e => Some (if s then Qopp (dyadic m e) else dyadic m e)
  | _ => None
  end.

(** ** Rounding a rational to binary64 *)

(** [floor (log2 (n / d))]. *)
Definition floor_log2 (n d : positive) : Z :=
  let t := Z.log2 (Zpos n) - Z.log2 (Zpos d) in
  let above := if 0 <=? t then Zpos d * 2 ^ t <=? Zpos n else Zpos d <=? Zpos n * 2 ^ (- t) in
  if above then t else t - 1.

(** [n / d] rounded to nearest, ties to even. *)
Definition round_div (n d : Z) : Z :=
  let q := n / d in
  let r := n mod d in
  match Z.compare (2 * r) d with
  | Lt => q
  | Gt => q + 1
  | Eq => if Z.even q then q else q + 1
  end.

(** The binary64 nearest [n / d] (with sign [neg]): mantissa below [2^53],
    exponent at least [-1074], [Infinity] from [2^1024] on. *)
Definition round_pos (neg : bool) (n d : positive) : float :=
  let e := Z.max (floor_log2 n d - 52) (-1074) in
  let m := if 0 <=? e then round_div (Zpos n) (Zpos d * 2 ^ e)
           else round_div (Zpos n * 2 ^ (- e)) (Zpos d) in
  let '(m, e) := if m =? 2 ^ 53 then (2 ^ 52, e + 1) else (m, e) in
  if 971 <? e then SF2Prim (S754_infinity neg)
  else match m with
       | Zpos p => SF2Prim (S754_finite neg p e)
       | _ => SF2Prim (S754_zero neg)
       end.

Definition round_Q (q : Q) : float :=
  match Qnum q with
  | Z0 => zero
  | Zpos p => round_pos false p (Qden q)
  | Zneg p => round_pos true p (Qden q)
  end.

(** ** [Math.ceil] *)

(** An integer of magnitude at most [2^53] as a float (exact). *)
Definition float_of_Z (z : Z) : float :=
  if z <? 0 then (- of_uint63 (Uint63.of_Z (- z)))%float else of_uint63 (Uint63.of_Z z).

Definition f64_ceil (x : float) : float :=
  match Prim2SF x with
  | S754_finite s m e =>
      if 0 <=? e then x
      else if s then
        (let z := - (Zpos m / 2 ^ (- e)) in
         if z =? 0 then neg_zero else float_of_Z z)
      else float_of_Z ((Zpos m + 2 ^ (- e) - 1) / 2 ^ (- e))
  | _ => x
  end.

(** ** Number::toString *)

(** [10^e] as a rational, for any integer [e]. *)
Definition pow10 (e : Z) : Q :=
  if 0 <=? e then inject_Z (10 ^ e) else Qmake 1 (Z.to_pos (10 ^ (- e))).

Definition digit_count (z : Z) : Z := Z.of_nat (String.length (Z_to_decimal z)).

(** For [a > 0]: the [E] with [10^E <= a < 10^(E+1)]. *)
Definition floor_log10 (n d : positive) : Z :=
  if Zpos d <=? Zpos n then digit_count (Zpos n / Zpos d) - 1
  else - digit_count ((Zpos d + Zpos n - 1) / Zpos n - 1).

(** The [k]-digit candidates below and above [a], as [(s, n)] with value
    [s * 10^(n-k)]; the first one of them that rounds to [x], the closer
    one when both do (the even one on a tie). *)
Definition candidate (x : float) (a : Q) (E : Z) (k : Z) : option (Z * Z) :=
  let p := E + 1 - k in
  let s_lo := Qfloor (a / pow10 p) in
  let s_hi := s_lo + 1 in
  let ok s := PrimFloat.eqb (round_Q (inject_Z s * pow10 p)) x in
  let norm s := if s =? 10 ^ k then (10 ^ (k - 1), E + 2) else (s, E + 1) in
  match ok s_lo, ok s_hi with
  | true, true =>
      let d_lo := (a - inject_Z s_lo * pow10 p)%Q in
      let d_hi := (inject_Z s_hi * pow10 p - a)%Q in
      match Qcompare d_lo d_hi with
      | Lt => Some (norm s_lo)
      | Gt => Some (norm s_hi)
      | Eq => Some (norm (if Z.even s_lo then s_lo else s_hi))
      end
  | true, false => Some (norm s_lo)
  | false, true => Some (norm s_hi)
  | false, false => None
  end.

(** The least [k] in [k0 .. 17] with a candidate. Seventeen significant
    digits always identify a binary64 value, so [k = 17] ends the search. *)
Fixpoint shortest (x : float) (a : Q) (E : Z) (k : Z) (fuel : nat) : Z * Z * Z :=
  match fuel with
  | O => (Qfloor (a / pow10 (E + 1 - k)), E + 1, k)
  | S fuel' =>
      match candidate x a E k with
      | Some (s, n) => (s, n, k)
      | None => shortest x a E (k + 1) fuel'
      end
  end.

Definition exponent_string (e : Z) : string :=
  (if 0 <=? e then "+" else "-") ++ Z_to_decimal (Z.abs e).

(** Steps 7-10 of Number::toString, for the digits [ds] of [s], [k] of
    them, and the exponent [n]. *)
Definition layout (ds : string) (k n : Z) : string :=
  if (k <=? n) && (n <=? 21) then ds ++ zeros (Z.to_nat (n - k))
  else if (0 <? n) && (n <=? 21) then
    substring 0 (Z.to_nat n) ds ++ "." ++ substring (Z.to_nat n) (Z.to_nat (k - n)) ds
  else if (-6 <? n) && (n <=? 0) then "0." ++ zeros (Z.to_nat (- n)) ++ ds
  else if k =? 1 then ds ++ "e" ++ exponent_string (n - 1)
  else substring 0 1 ds ++ "." ++ substring 1 (Z.to_nat (k - 1)) ds ++ "e"
         ++ exponent_string (n - 1).

Definition number_to_string (x : float) : string :=
  match Prim2SF x with
  | S754_nan => "NaN"
  | S754_zero _ => "0"
  | S754_infinity s => if s then "-Infinity" else "Infinity"
  | S754_finite s m e =>
      let a := dyadic m e in
      let ax := if s then (- x)%float else x in
      let E := floor_log10 (Z.to_pos (Qnum a)) (Qden a) in
      let '(sd, n, k) := shortest ax a E 1 17 in
      (if s then "-" else "") ++ layout (Z_to_decimal sd) k n
  end.

(** ** [Number.prototype.toFixed] *)

Definition f64_toFixed (x : float) (d : nat) : string :=
  match Prim2SF x with
  | S754_nan => "NaN"
  | S754_infinity s => if s then "-Infinity" else "Infinity"
  | _ =>
      match float_value x with
      | Some q =>
          toFixed_with (fun v => number_to_string (round_Q v)) q d
      | None => "NaN"
      end
  end.

#[export] Instance float64_number : JSNumber float := {
  js_add := PrimFloat.add; js_sub := PrimFloat.sub;
  js_mul := PrimFloat.mul; js_div := PrimFloat.div;
  js_lt := PrimFloat.ltb; js_ceil := f64_ceil;
  js_zero := zero; js_one := one; js_two := two;
  js_toFixed := f64_toFixed; js_toString := number_to_string;
  js_nan := nan; js_infinity := fun neg => if neg then neg_infinity else infinity;
  js_of_Q := round_Q
}.
