(* ===== verification/Runs.v ===== *)
(** * Runs of the calculator on JavaScript numbers

    [Calculator.solveEulerModified] instantiated with [Float64.float64_number],
    the binary64 numbers the app computes with. The right-hand side comes
    from mathjs's [evaluate], which this development does not model.
    [evaluate64] stands in for it on the default equation: mathjs
    evaluates [x + y] on two numbers with JavaScript's [+].

    The runs are evaluated by the kernel ([vm_compute]): they are the
    screen's contents for the given fields, line by line. *)

From Stdlib Require Import String List Floats.
From S2P Require Import Prelude Number Format Exact Float64 Parse Evaluator Stepper Calculator.
Import ListNotations.
Local Open Scope string_scope.

(** mathjs's [evaluate(expr, { x, y })] on the expression of the default
    equation, as binary64. *)
Definition evaluate64 (expr : string) (x y : float) : option float :=
  if String.eqb expr "x + y" then Some (x + y)%float else None.

(** The loops of a run over at most [fuel_runs] steps finish within this
    fuel: each loop takes one unit per iteration. *)
Definition fuel_runs : nat := 50.

(** The state after editing the start and the target of [initial_calculator]. *)
Definition with_interval (x0 xf : string) : calculator :=
  set_field FinalX xf (set_field InitialX x0 initial_calculator).

(** Pressing Solve on the initial form (y' = x + y, x0 = 0, y0 = 0,
    h = 0.1, target 1, one correction) at the default precision 4 shows a
    trace of 75 lines: the four header lines, announcing 10 steps, ten
    blocks of seven lines and the final line y(1.0000) = 0.7141. *)
Example default_run :
  exists s, solveEulerModified evaluate64 4 fuel_runs initial_calculator = Some s /\
    firstn 4 (solution s) =
      ["Starting with initial values: x₀ = 0.0000, y₀ = 0.0000";
       "Target x value: 1.0000";
       "Using step size h = 0.1000 (10 steps)";
       "Number of corrections per step: 1"] /\
    List.length (solution s) = 75 /\
    last (solution s) "" = (nl ++ "Final value: y(1.0000) = 0.7141")%string.
Proof. eexists. split; [vm_compute; reflexivity|]. vm_compute. auto. Qed.

(** A target below the start: the header reports a negative step count
    and the trace has no step. *)
Example negative_step_count_binary64 :
  exists s, solveEulerModified evaluate64 4 fuel_runs (with_interval "1" "0") = Some s /\
    solution s =
      ["Starting with initial values: x₀ = 1.0000, y₀ = 0.0000";
       "Target x value: 0.0000";
       "Using step size h = 0.1000 (-10 steps)";
       "Number of corrections per step: 1";
       (nl ++ "Final value: y(1.0000) = 0.0000")%string].
Proof. eexists. split; [vm_compute; reflexivity | vm_compute; reflexivity]. Qed.
